(** * Course entitlements: policy windows, expiration, redemption

    A shallow embedding of [common/djangoapps/entitlements/models.py]:
    the [CourseEntitlementPolicy] date arithmetic, the [CourseEntitlement]
    state transitions and the class-level queries, followed by the
    properties established about them.

    Conventions of the embedding.
    - A [datetime] is an aware instant in UTC, counted in microseconds from
      1970-01-01; a [timedelta] is a signed number of microseconds.  Python
      normalises a timedelta so that [0 <= seconds < 86400] and
      [0 <= microseconds < 10^6]; its [.days] attribute is therefore the
      floor of the duration divided by one day, which is [Z.div].
    - Adding a timedelta to a datetime raises [OverflowError] when the
      result leaves the years 1 to 9999, and so does building a timedelta
      of more than 999999999 days.  Subtracting two datetimes cannot
      overflow.
    - [now()] reads the wall clock.  Successive calls may observe different
      instants, so the clock is a sequence of readings and every call
      consumes one.
    - A method that mutates [self] returns the updated object; [save()]
      writes the object's row in the entitlement table of the [World].
    - An exception is an [Outcome]; side effects made before it was raised
      remain in the [World], as they do in Python.
    - Collaborators whose code lives in other applications (course
      overviews, certificates, the catalog, the enrolment service) are
      section variables. *)

From Stdlib Require Import ZArith List String Bool Lia Permutation Sorted.
Import ListNotations.
Open Scope Z_scope.

(** ** Instants and durations *)

Definition datetime := Z.
Definition timedelta := Z.

Definition MICROSECONDS_PER_DAY : Z := 86400000000.

(** [timedelta(days=n)] *)
Definition timedelta_of_days (n : Z) : timedelta := n * MICROSECONDS_PER_DAY.

(** The [.days] attribute of a normalised timedelta. *)
Definition days (d : timedelta) : Z := d / MICROSECONDS_PER_DAY.

(** [datetime.min] and [datetime.max]: 0001-01-01 00:00:00 and
    9999-12-31 23:59:59.999999. *)
Definition DATETIME_MIN : datetime := -62135596800000000.
Definition DATETIME_MAX : datetime := 253402300799999999.

(** Whether an instant can be held by a datetime. *)
Definition representable (t : Z) : bool :=
  (DATETIME_MIN <=? t) && (t <=? DATETIME_MAX).

(** The largest magnitude of the [days] argument of [timedelta]. *)
Definition TIMEDELTA_MAX_DAYS : Z := 999999999.

(** Python's three-argument [min]. *)
Definition min3 (a b c : Z) : Z := Z.min a (Z.min b c).

(** ** Records *)

Definition User := Z.
Definition CourseKey := string.
Definition UUID := string.

(** [student.models.CourseEnrollment], as far as this module reads it. *)
Record CourseEnrollment := mkEnrollment {
  enrollment_user : User;
  course_id : CourseKey;
  enrollment_mode : string;
  enrollment_created : datetime
}.

(** [CourseOverview], as far as this module reads it. *)
Record CourseOverview := mkOverview {
  start : datetime
}.

Record CourseEntitlementPolicy := mkPolicy {
  expiration_period : timedelta;
  refund_period : timedelta;
  regain_period : timedelta;
  site : option Z
}.

Definition DEFAULT_EXPIRATION_PERIOD_DAYS : Z := 450.
Definition DEFAULT_REFUND_PERIOD_DAYS : Z := 60.
Definition DEFAULT_REGAIN_PERIOD_DAYS : Z := 14.

(** [CourseEntitlementPolicy()]: every field at its declared default. *)
Definition default_policy : CourseEntitlementPolicy :=
  {| expiration_period := timedelta_of_days DEFAULT_EXPIRATION_PERIOD_DAYS;
     refund_period := timedelta_of_days DEFAULT_REFUND_PERIOD_DAYS;
     regain_period := timedelta_of_days DEFAULT_REGAIN_PERIOD_DAYS;
     site := None |}.

(** [CourseEntitlement]; [id] and [created] come from the base model.  The
    base model's [modified] stamp is not read anywhere in this module and
    is left out. *)
Record CourseEntitlement := mkEntitlement {
  id : Z;
  user : User;
  uuid : UUID;
  course_uuid : UUID;
  expired_at : option datetime;
  mode : string;
  enrollment_course_run : option CourseEnrollment;
  order_number : option string;
  _policy : option CourseEntitlementPolicy;
  created : datetime
}.

Definition with_expired_at (v : option datetime) (e : CourseEntitlement) :=
  {| id := id e; user := user e; uuid := uuid e; course_uuid := course_uuid e;
     expired_at := v; mode := mode e;
     enrollment_course_run := enrollment_course_run e;
     order_number := order_number e; _policy := _policy e;
     created := created e |}.

Definition with_enrollment_course_run (v : option CourseEnrollment)
    (e : CourseEntitlement) :=
  {| id := id e; user := user e; uuid := uuid e; course_uuid := course_uuid e;
     expired_at := expired_at e; mode := mode e;
     enrollment_course_run := v;
     order_number := order_number e; _policy := _policy e;
     created := created e |}.

(** Truthiness of a nullable attribute: a datetime or a model instance is
    truthy, [None] is not. *)
Definition truthy {A} (o : option A) : bool :=
  match o with Some _ => true | None => false end.

(** ** Exceptions, the world, and the monad of effects *)

Inductive exn :=
| DoesNotExist (model : string)
| AttributeError (message : string)
| CourseEnrollmentException (subclass : string)
| OverflowError (message : string)
| OtherException (name : string).

(** [except CourseEnrollmentException] matches the class and its
    subclasses. *)
Definition is_CourseEnrollmentException (x : exn) : bool :=
  match x with CourseEnrollmentException _ => true | _ => false end.

Record World := mkWorld {
  clock : nat -> datetime;
  ticks : nat;
  entitlements : list CourseEntitlement;
  log : list string
}.

Inductive Outcome (A : Type) :=
| Ok (a : A)
| Raise (x : exn).
Arguments Ok {A} a.
Arguments Raise {A} x.

Definition M (A : Type) := World -> Outcome A * World.

Definition ret {A} (a : A) : M A := fun w => (Ok a, w).
Definition raise {A} (x : exn) : M A := fun w => (Raise x, w).
Definition bind {A B} (m : M A) (k : A -> M B) : M B :=
  fun w => match m w with
           | (Ok a, w') => k a w'
           | (Raise x, w') => (Raise x, w')
           end.

Notation "x <- m ;; k" := (bind m (fun x => k))
  (at level 61, m at next level, right associativity).
Notation "m ;;; k" := (bind m (fun _ => k))
  (at level 61, right associativity).

(** The result of a collaborator that either raises or returns. *)
Definition lift {A} (r : exn + A) : M A :=
  match r with inl x => raise x | inr a => ret a end.

(** [try: m  except <matching>: handler] *)
Definition try_except {A} (m : M A) (matching : exn -> bool)
    (handler : exn -> M A) : M A :=
  fun w => match m w with
           | (Raise x, w') => if matching x then handler x w' else (Raise x, w')
           | r => r
           end.

(** [datetime + timedelta] *)
Definition datetime_add (t : datetime) (d : timedelta) : M datetime :=
  if representable (t + d) then ret (t + d)
  else raise (OverflowError "date value out of range").

(** [timedelta(days=n)] for a computed [n]. *)
Definition timedelta_from_days (n : Z) : M timedelta :=
  if (- TIMEDELTA_MAX_DAYS <=? n) && (n <=? TIMEDELTA_MAX_DAYS)
  then ret (timedelta_of_days n)
  else raise (OverflowError "days; must have magnitude <= 999999999").

(** The reading the next call of [now()] will return. *)
Definition reading (w : World) : datetime := clock w (ticks w).

Definition tick (w : World) : World :=
  {| clock := clock w; ticks := S (ticks w);
     entitlements := entitlements w; log := log w |}.

(** [django.utils.timezone.now()] *)
Definition now : M datetime := fun w => (Ok (reading w), tick w).

(** [log.exception(message)] *)
Definition log_exception (message : string) : M unit :=
  fun w => (Ok tt, {| clock := clock w; ticks := ticks w;
                      entitlements := entitlements w;
                      log := log w ++ [message] |}).

(** ** The entitlement table *)

(** Writing a row: the row with the same primary key is replaced; an object
    that has no row yet is appended. *)
Fixpoint upsert (e : CourseEntitlement) (rows : list CourseEntitlement)
  : list CourseEntitlement :=
  match rows with
  | [] => [e]
  | r :: rows' => if id r =? id e then e :: rows' else r :: upsert e rows'
  end.

Definition with_entitlements (rows : list CourseEntitlement) (w : World) :=
  {| clock := clock w; ticks := ticks w; entitlements := rows; log := log w |}.

(** [self.save()] *)
Definition save (self : CourseEntitlement) : M unit :=
  fun w => (Ok tt, with_entitlements (upsert self (entitlements w)) w).

(** [@transaction.atomic]: when the body raises, the writes it made to the
    table are rolled back and the exception propagates. *)
Definition transaction_atomic {A} (body : M A) : M A :=
  fun w => match body w with
           | (Raise x, w') => (Raise x, with_entitlements (entitlements w) w')
           | r => r
           end.

Section Entitlements.

(** ** Collaborators *)

(** [CourseOverview.get_from_id]: the overview of a course run, or the
    exception met while loading it. *)
Variable CourseOverview_get_from_id : CourseKey -> exn + CourseOverview.

(** [GeneratedCertificate.certificate_for_student]: whether a certificate
    object is returned ([true]) or [None] ([false]). *)
Variable certificate_for_student : User -> CourseKey -> bool.

(** ** CourseEntitlementPolicy *)

Definition get_days_until_expiration (self : CourseEntitlementPolicy)
    (entitlement : CourseEntitlement) : M Z :=
  now_timestamp <- now ;;
  expiry_date <- datetime_add (created entitlement) (expiration_period self) ;;
  let days_until_expiry := days (expiry_date - now_timestamp) in
  match enrollment_course_run entitlement with
  | None => ret days_until_expiry
  | Some run =>
      course_overview <- lift (CourseOverview_get_from_id (course_id run)) ;;
      let days_since_course_start := days (now_timestamp - start course_overview) in
      let days_since_enrollment := days (now_timestamp - enrollment_created run) in
      let days_since_entitlement_created := days (now_timestamp - created entitlement) in
      let days_until_regain_ends :=
        days (regain_period self)
        - min3 days_since_course_start days_since_enrollment
               days_since_entitlement_created in
      if days_until_expiry <? days_until_regain_ends
      then ret days_until_expiry
      else ret days_until_regain_ends
  end.

Definition is_entitlement_regainable (self : CourseEntitlementPolicy)
    (entitlement : CourseEntitlement) : M bool :=
  if truthy (expired_at entitlement) then ret false
  else match enrollment_course_run entitlement with
       | Some run =>
           if certificate_for_student (user entitlement) (course_id run)
           then ret false
           else d <- get_days_until_expiration self entitlement ;;
                ret (d >=? 0)
       | None => ret false
       end.

(** [CourseEntitlement.get_days_since_created] *)
Definition get_days_since_created (self : CourseEntitlement) : M Z :=
  t <- now ;; ret (days (t - created self)).

Definition is_entitlement_refundable (self : CourseEntitlementPolicy)
    (entitlement : CourseEntitlement) : M bool :=
  if truthy (expired_at entitlement) then ret false
  else match order_number entitlement with
       | None => ret false
       | Some _ =>
           d <- get_days_since_created entitlement ;;
           if d >? days (refund_period self) then ret false
           else if truthy (enrollment_course_run entitlement)
                then is_entitlement_regainable self entitlement
                else ret true
       end.

Definition is_entitlement_redeemable (self : CourseEntitlementPolicy)
    (entitlement : CourseEntitlement) : M bool :=
  d <- get_days_since_created entitlement ;;
  ret ((d <? days (expiration_period self))
       && negb (truthy (enrollment_course_run entitlement))
       && negb (truthy (expired_at entitlement))).


(** ** CourseEntitlement *)

(** The [policy] property: [self._policy or CourseEntitlementPolicy()]. *)
Definition policy (self : CourseEntitlement) : CourseEntitlementPolicy :=
  match _policy self with
  | Some p => p
  | None => default_policy
  end.

(** The methods of [CourseEntitlement] that delegate to its policy carry an
    [entitlement_] prefix here, to keep them apart from the policy's own
    methods of the same name. *)
Definition entitlement_get_days_until_expiration (self : CourseEntitlement) : M Z :=
  get_days_until_expiration (policy self) self.

Definition entitlement_is_entitlement_regainable (self : CourseEntitlement) : M bool :=
  is_entitlement_regainable (policy self) self.

Definition entitlement_is_entitlement_refundable (self : CourseEntitlement) : M bool :=
  is_entitlement_refundable (policy self) self.

Definition entitlement_is_entitlement_redeemable (self : CourseEntitlement) : M bool :=
  is_entitlement_redeemable (policy self) self.

(** The condition of [update_expired_at], with the short-circuit order of
    [or] and [and]. *)
Definition expiry_condition (self : CourseEntitlement) : M bool :=
  d <- get_days_until_expiration (policy self) self ;;
  if d <? 0 then ret true
  else if truthy (enrollment_course_run self)
       then r <- entitlement_is_entitlement_regainable self ;; ret (negb r)
       else ret false.

Definition update_expired_at (self : CourseEntitlement) : M CourseEntitlement :=
  if negb (truthy (expired_at self)) then
    c <- expiry_condition self ;;
    if c then
      t <- now ;;
      let self' := with_expired_at (Some t) self in
      save self' ;;; ret self'
    else ret self
  else ret self.

(** [n] successive calls of [update_expired_at] on the same object. *)
Fixpoint update_expired_at_times (n : nat) (self : CourseEntitlement)
  : M CourseEntitlement :=
  match n with
  | O => ret self
  | S n' => self' <- update_expired_at self ;; update_expired_at_times n' self'
  end.

(** The [expired_at_datetime] getter. *)
Definition expired_at_datetime (self : CourseEntitlement)
  : M (option datetime * CourseEntitlement) :=
  self' <- update_expired_at self ;; ret (expired_at self', self').

Definition set_enrollment (self : CourseEntitlement)
    (enrollment : option CourseEnrollment) : M CourseEntitlement :=
  let self' := with_enrollment_course_run enrollment self in
  save self' ;;; ret self'.

(** ** Queries *)

(** A queryset is evaluated against the table as it stands; the methods
    below evaluate theirs where the source first iterates it. *)
Definition objects : M (list CourseEntitlement) :=
  fun w => (Ok (entitlements w), w).

(** [order_by('-created')]: newest first; rows with equal stamps keep the
    order of the table. *)
Fixpoint insert_by_created (e : CourseEntitlement)
    (rows : list CourseEntitlement) : list CourseEntitlement :=
  match rows with
  | [] => [e]
  | r :: rows' =>
      if created r <=? created e then e :: r :: rows'
      else r :: insert_by_created e rows'
  end.

Definition order_by_created_desc (rows : list CourseEntitlement)
  : list CourseEntitlement :=
  fold_right insert_by_created [] rows.

(** [expired_at__isnull=False, enrollment_course_run=None] *)
Definition expired_and_unredeemed (e : CourseEntitlement) : bool :=
  truthy (expired_at e) && negb (truthy (enrollment_course_run e)).

(** [expired_at__isnull=False, enrollment_course_run__isnull=False] *)
Definition expired_and_redeemed (e : CourseEntitlement) : bool :=
  truthy (expired_at e) && truthy (enrollment_course_run e).

Definition get_active_entitlements_for_user (u : User)
  : M (list CourseEntitlement) :=
  rows <- objects ;;
  ret (filter (fun e => negb (expired_and_unredeemed e))
         (filter (fun e => user e =? u) rows)).

Definition get_fulfillable_entitlements (u : User)
  : M (list CourseEntitlement) :=
  rows <- objects ;;
  ret (order_by_created_desc
         (filter (fun e => negb (expired_and_redeemed e))
            (filter (fun e => user e =? u) rows))).

(** [catalog.utils.get_course_uuid_for_course]: the course's UUID, or
    [None] when it cannot be resolved. *)
Variable get_course_uuid_for_course : CourseKey -> option UUID.

(** [entitlements.utils.is_course_run_entitlement_fulfillable], called with
    whatever [first()] produced: an entitlement or [None]. *)
Variable is_course_run_entitlement_fulfillable :
  CourseKey -> option CourseEntitlement -> exn + bool.

Definition NoneType_has_no_attribute (attribute : string) : exn :=
  AttributeError ("'NoneType' object has no attribute '" ++ attribute ++ "'").

Definition get_fulfillable_entitlement_for_user_course_run (u : User)
    (course_run_key : CourseKey) : M (option CourseEntitlement) :=
  fulfillable <- get_fulfillable_entitlements u ;;
  match fulfillable with
  | _ :: _ =>
      match get_course_uuid_for_course course_run_key with
      | Some c =>
          let entitlement :=
            hd_error (filter (fun e => String.eqb (course_uuid e) c) fulfillable) in
          ok <- lift (is_course_run_entitlement_fulfillable course_run_key entitlement) ;;
          if ok then
            match entitlement with
            | Some e =>
                r <- entitlement_is_entitlement_redeemable e ;;
                if r then ret (Some e) else ret None
            | None => raise (NoneType_has_no_attribute "is_entitlement_redeemable")
            end
          else ret None
      | None => ret None
      end
  | [] => ret None
  end.

(** [student.models.CourseEnrollment.enroll] *)
Variable CourseEnrollment_enroll : User -> CourseKey -> string -> M CourseEnrollment.

(** The method returns its boolean together with the entitlement object it
    was handed, as that object stands afterwards.  The [try] encloses the
    call of [enroll] only; [None] stands for the [return False] of the
    handler. *)
Definition enroll_user_and_fulfill_entitlement (entitlement : CourseEntitlement)
    (course_run_key : CourseKey) : M (bool * CourseEntitlement) :=
  transaction_atomic
    (attempt <-
       try_except
         (enrollment <- CourseEnrollment_enroll (user entitlement) course_run_key
                          (mode entitlement) ;;
          ret (Some enrollment))
         is_CourseEnrollmentException
         (fun _ =>
            log_exception ("Login for Course Entitlement " ++ uuid entitlement
                           ++ " failed") ;;;
            ret None) ;;
     match attempt with
     | None => ret (false, entitlement)
     | Some enrollment =>
         entitlement' <- set_enrollment entitlement (Some enrollment) ;;
         ret (true, entitlement')
     end).

Definition check_for_existing_entitlement_and_enroll (u : User)
    (course_run_key : CourseKey) : M bool :=
  entitlement <- get_fulfillable_entitlement_for_user_course_run u course_run_key ;;
  match entitlement with
  | Some e =>
      r <- enroll_user_and_fulfill_entitlement e course_run_key ;;
      ret (fst r)
  | None => ret false
  end.

End Entitlements.

(** ** The remaining methods of CourseEntitlement *)

(** The [expired_at_datetime] setter. *)
Definition set_expired_at_datetime (self : CourseEntitlement)
    (value : option datetime) : CourseEntitlement :=
  with_expired_at value self.

(** [filter(user=user, expired_at=None)] *)
Definition unexpired_entitlements_for_user (u : User)
  : M (list CourseEntitlement) :=
  rows <- objects ;;
  ret (filter (fun e => (user e =? u) && negb (truthy (expired_at e))) rows).

(** [except CourseEntitlement.DoesNotExist] *)
Definition is_CourseEntitlement_DoesNotExist (x : exn) : bool :=
  match x with
  | DoesNotExist model => String.eqb model "CourseEntitlement"
  | _ => false
  end.

(** [queryset.latest('created')]: the first row of the queryset ordered by
    [-created]; [DoesNotExist] when there is none. *)
Definition latest_created (rows : list CourseEntitlement) : M CourseEntitlement :=
  match order_by_created_desc rows with
  | e :: _ => ret e
  | [] => raise (DoesNotExist "CourseEntitlement")
  end.

Definition get_entitlement_if_active (u : User) (c : UUID)
  : M (option CourseEntitlement) :=
  try_except
    (rows <- objects ;;
     e <- latest_created
            (filter (fun e => negb (expired_and_unredeemed e))
               (filter (fun e => (user e =? u) && String.eqb (course_uuid e) c)
                  rows)) ;;
     ret (Some e))
    is_CourseEntitlement_DoesNotExist
    (fun _ => ret None).

(** The dictionary built by [to_dict]. *)
Record EntitlementDict := mkDict {
  dict_uuid : string;
  dict_course_uuid : string;
  dict_expired_at : option string;
  dict_expiration_date : option string
}.

Section Projection.

Variable CourseOverview_get_from_id : CourseKey -> exn + CourseOverview.
Variable certificate_for_student : User -> CourseKey -> bool.

(** [settings.ENTITLEMENT_EXPIRED_ALERT_PERIOD] *)
Variable ENTITLEMENT_EXPIRED_ALERT_PERIOD : Z.

(** [util.date_utils.strftime_localized] *)
Variable strftime_localized : datetime -> string -> string.

(** [to_dict] reads [expired_at_datetime] twice, once as the test of the
    conditional expression and once as the argument of the formatter; each
    read runs [update_expired_at].  The arguments of the first formatter
    call are evaluated left to right: [now()], then the day count, then
    the timedelta built from it, then the sum.  The method returns the
    dictionary together with the object as the reads left it. *)
Definition to_dict (self : CourseEntitlement)
  : M (EntitlementDict * CourseEntitlement) :=
  d <- entitlement_get_days_until_expiration CourseOverview_get_from_id self ;;
  expiration_date <-
    (if d <? ENTITLEMENT_EXPIRED_ALERT_PERIOD then
       t <- now ;;
       d' <- entitlement_get_days_until_expiration CourseOverview_get_from_id self ;;
       delta <- timedelta_from_days d' ;;
       shown <- datetime_add t delta ;;
       ret (Some (strftime_localized shown "SHORT_DATE"))
     else ret None) ;;
  test <- expired_at_datetime CourseOverview_get_from_id certificate_for_student
            self ;;
  formatted <-
    (if truthy (fst test) then
       value <- expired_at_datetime CourseOverview_get_from_id
                  certificate_for_student (snd test) ;;
       match fst value with
       | Some t => ret (Some (strftime_localized t "SHORT_DATE"), snd value)
       | None => raise (NoneType_has_no_attribute "strftime")
       end
     else ret (None, snd test)) ;;
  ret ({| dict_uuid := uuid self;
          dict_course_uuid := course_uuid self;
          dict_expired_at := fst formatted;
          dict_expiration_date := expiration_date |},
       snd formatted).

End Projection.

(** ** Sample data

    A frozen clock, a learner with one entitlement, and the collaborators
    the examples run against. *)

Definition D : Z := MICROSECONDS_PER_DAY.

(** 2018-03-02 14:13:20 UTC *)
Definition T0 : datetime := 1520000000000000.

Definition frozen (t : datetime) (rows : list CourseEntitlement) : World :=
  {| clock := fun _ => t; ticks := 0; entitlements := rows; log := [] |}.

Definition overview_starting (t : datetime) : CourseKey -> exn + CourseOverview :=
  fun _ => inr {| start := t |}.

Definition overview_missing : CourseKey -> exn + CourseOverview :=
  fun _ => inl (DoesNotExist "CourseOverview"%string).

Definition no_certificate : User -> CourseKey -> bool := fun _ _ => false.

Definition run_A : CourseKey := "course-v1:edX+DemoX+2018_T1"%string.
Definition run_B : CourseKey := "course-v1:edX+OtherX+2018_T1"%string.
Definition course_A : UUID := "3b2f2f1c-0000-4000-8000-00000000000a"%string.
Definition course_B : UUID := "3b2f2f1c-0000-4000-8000-00000000000b"%string.

(** An entitlement bought at [t], not yet redeemed. *)
Definition purchased (t : datetime) : CourseEntitlement :=
  {| id := 1; user := 7; uuid := "9f1c7d2e-0000-4000-8000-000000000001"%string;
     course_uuid := course_A; expired_at := None; mode := "verified"%string;
     enrollment_course_run := None; order_number := Some "EDX-100001"%string;
     _policy := None; created := t |}.

(** An enrolment of the same learner in [run_A], created at [t]. *)
Definition enrolled (t : datetime) : CourseEnrollment :=
  {| enrollment_user := 7; course_id := run_A; enrollment_mode := "verified"%string;
     enrollment_created := t |}.

(** The entitlement bought at [t0] and redeemed at [t1]. *)
Definition redeemed (t0 t1 : datetime) : CourseEntitlement :=
  with_enrollment_course_run (Some (enrolled t1)) (purchased t0).

(** The entitlement bought 440 days before it was redeemed at [T0]. *)
Definition redeemed_late : CourseEntitlement :=
  redeemed (T0 - timedelta_of_days 440) T0.

(** An enrolment of the same learner in [run_B], created at [t]. *)
Definition enrolled_in_B (t : datetime) : CourseEnrollment :=
  {| enrollment_user := 7; course_id := run_B; enrollment_mode := "verified"%string;
     enrollment_created := t |}.

(** A catalog that knows the two runs. *)
Definition catalog (k : CourseKey) : option UUID :=
  if String.eqb k run_A then Some course_A
  else if String.eqb k run_B then Some course_B
  else None.

(** A fulfillability check that looks at the run only, and accepts it. *)
Definition run_accepted : CourseKey -> option CourseEntitlement -> exn + bool :=
  fun _ _ => inr true.

(** A fulfillability check that reads the entitlement's owner before
    accepting the run. *)
Definition run_accepted_for_owner
  : CourseKey -> option CourseEntitlement -> exn + bool :=
  fun _ entitlement =>
    match entitlement with
    | Some _ => inr true
    | None => inl (NoneType_has_no_attribute "user"%string)
    end.

(** An enrolment service that enrols, stamping the enrolment with the
    clock. *)
Definition enroll_succeeds : User -> CourseKey -> string -> M CourseEnrollment :=
  fun u k m =>
    t <- now ;;
    ret {| enrollment_user := u; course_id := k; enrollment_mode := m;
           enrollment_created := t |}.

(** An enrolment service that finds the course full. *)
Definition enroll_course_full : User -> CourseKey -> string -> M CourseEnrollment :=
  fun _ _ _ => raise (CourseEnrollmentException "CourseFullError"%string).

(** A policy whose expiration period is 3,000,000 days. *)
Definition long_policy : CourseEntitlementPolicy :=
  {| expiration_period := timedelta_of_days 3000000;
     refund_period := timedelta_of_days DEFAULT_REFUND_PERIOD_DAYS;
     regain_period := timedelta_of_days DEFAULT_REGAIN_PERIOD_DAYS;
     site := None |}.

(** The entitlement bought at [t] under [long_policy]. *)
Definition purchased_long (t : datetime) : CourseEntitlement :=
  {| id := 2; user := 7; uuid := "9f1c7d2e-0000-4000-8000-000000000002"%string;
     course_uuid := course_A; expired_at := None; mode := "verified"%string;
     enrollment_course_run := None; order_number := Some "EDX-100002"%string;
     _policy := Some long_policy; created := t |}.

(** The world [n] days after [T0], the clock frozen. *)
Definition on_day (n : Z) (rows : list CourseEntitlement) : World :=
  frozen (T0 + timedelta_of_days n) rows.

(** An enrolment service that fails for a reason of its own. *)
Definition enroll_crashes : User -> CourseKey -> string -> M CourseEnrollment :=
  fun _ _ _ => raise (OtherException "IntegrityError"%string).

(** A run the catalog does not know. *)
Definition run_unknown : CourseKey := "course-v1:edX+Unknown+2018_T1"%string.

(** A formatter that answers with the name of the format. *)
Definition format_name : datetime -> string -> string := fun _ format => format.

(** ** Notions used by the statements *)

(** The two ways the day count can raise [x]: the expiry date is not
    representable, or it is and the course overview lookup of the bound
    run raised [x]. *)
Definition day_count_raises (get_from_id : CourseKey -> exn + CourseOverview)
    (p : CourseEntitlementPolicy) (e : CourseEntitlement) (x : exn) : Prop :=
  (representable (created e + expiration_period p) = false
   /\ x = OverflowError "date value out of range")
  \/ (representable (created e + expiration_period p) = true
      /\ exists run, enrollment_course_run e = Some run
                     /\ get_from_id (course_id run) = inl x).


(** The part of [to_dict] that builds [expiration_date] from the first day
    count [d], started in the world [w1] that count left. *)
Definition expiration_date_stage
    (get_from_id : CourseKey -> exn + CourseOverview) (ALERT_PERIOD : Z)
    (strftime : datetime -> string -> string) (self : CourseEntitlement)
    (d : Z) (w1 : World) : Outcome (option string) * World :=
  if d <? ALERT_PERIOD then
    match get_days_until_expiration get_from_id (policy self) self (tick w1) with
    | (Ok d', w3) =>
        if (- TIMEDELTA_MAX_DAYS <=? d') && (d' <=? TIMEDELTA_MAX_DAYS) then
          if representable (reading w1 + timedelta_of_days d') then
            (Ok (Some (strftime (reading w1 + timedelta_of_days d') "SHORT_DATE"%string)),
             w3)
          else (Raise (OverflowError "date value out of range"), w3)
        else (Raise (OverflowError "days; must have magnitude <= 999999999"), w3)
    | (Raise x, w3) => (Raise x, w3)
    end
  else (Ok None, w1).

(** Newest first. *)
Definition newest_first : list CourseEntitlement -> Prop :=
  StronglySorted (fun a b => created b <= created a).

(** One step of the monad: unfold its operations and reduce the redexes
    they leave, without touching the arithmetic. *)
Ltac step := cbv beta iota delta [bind ret raise lift now fst snd].

(** ** Day arithmetic *)

Lemma days_floor (d : timedelta) :
  days d * MICROSECONDS_PER_DAY <= d < (days d + 1) * MICROSECONDS_PER_DAY.
Proof.
  unfold days, MICROSECONDS_PER_DAY.
  pose proof (Z.div_mod d 86400000000 ltac:(lia)) as E.
  pose proof (Z.mod_pos_bound d 86400000000 ltac:(lia)) as B.
  lia.
Qed.

Lemma days_lt_iff (d : timedelta) (n : Z) :
  days d < n <-> d < n * MICROSECONDS_PER_DAY.
Proof.
  pose proof (days_floor d) as F. unfold MICROSECONDS_PER_DAY in *. nia.
Qed.

Lemma days_ge_iff (d : timedelta) (n : Z) :
  n <= days d <-> n * MICROSECONDS_PER_DAY <= d.
Proof.
  pose proof (days_floor d) as F. unfold MICROSECONDS_PER_DAY in *. nia.
Qed.

Lemma days_timedelta_of_days (n : Z) : days (timedelta_of_days n) = n.
Proof.
  unfold days, timedelta_of_days, MICROSECONDS_PER_DAY.
  apply Z.div_mul. lia.
Qed.

Lemma min3_least (a b c : Z) :
  min3 a b c <= a /\ min3 a b c <= b /\ min3 a b c <= c /\
  (min3 a b c = a \/ min3 a b c = b \/ min3 a b c = c).
Proof. unfold min3. lia. Qed.

Lemma ok_eq {A} (a b : A) (w : World) : (Ok a, w) = (Ok b, w) <-> a = b.
Proof. split; [intros H; congruence | intros ->; reflexivity]. Qed.

Lemma truthy_true {A} (o : option A) : truthy o = true <-> o <> None.
Proof. destruct o; simpl; split; congruence. Qed.

Lemma truthy_false {A} (o : option A) : truthy o = false <-> o = None.
Proof. destruct o; simpl; split; congruence. Qed.

(** ** Properties of the policy *)

Section PolicyProperties.

Variable get_from_id : CourseKey -> exn + CourseOverview.
Variable certificate : User -> CourseKey -> bool.

Local Abbreviation days_until := (get_days_until_expiration get_from_id).
Local Abbreviation regainable := (is_entitlement_regainable get_from_id certificate).
Local Abbreviation refundable := (is_entitlement_refundable get_from_id certificate).

Ltac run :=
  unfold is_entitlement_refundable, is_entitlement_regainable,
    is_entitlement_redeemable, get_days_since_created,
    get_days_until_expiration;
  step.

(** The day count, path by path: the clock is read, the expiry date is
    formed, and only then is the bound run looked up. *)
Lemma days_until_cases (p : CourseEntitlementPolicy) (e : CourseEntitlement)
    (w : World) :
  days_until p e w =
    if representable (created e + expiration_period p) then
      match enrollment_course_run e with
      | None =>
          (Ok (days (created e + expiration_period p - reading w)), tick w)
      | Some run =>
          match get_from_id (course_id run) with
          | inl x => (Raise x, tick w)
          | inr ov =>
              (Ok (Z.min (days (created e + expiration_period p - reading w))
                     (days (regain_period p)
                      - min3 (days (reading w - start ov))
                             (days (reading w - enrollment_created run))
                             (days (reading w - created e)))),
               tick w)
          end
      end
    else (Raise (OverflowError "date value out of range"), tick w).
Proof.
  unfold get_days_until_expiration, datetime_add. step.
  destruct (representable (created e + expiration_period p)); [| reflexivity].
  step.
  destruct (enrollment_course_run e) as [run |]; [| reflexivity].
  destruct (get_from_id (course_id run)) as [x | ov]; [reflexivity |].
  step.
  destruct (Z.ltb_spec (days (created e + expiration_period p - reading w))
              (days (regain_period p)
               - min3 (days (reading w - start ov))
                      (days (reading w - enrollment_created run))
                      (days (reading w - created e)))) as [L | L].
  - rewrite Z.min_l by lia. reflexivity.
  - rewrite Z.min_r by lia. reflexivity.
Qed.

(** The value computed for an entitlement whose course overview is at hand. *)
Lemma days_until_bound (p : CourseEntitlementPolicy) (e : CourseEntitlement)
    (w : World) (run : CourseEnrollment) (ov : CourseOverview) :
  representable (created e + expiration_period p) = true ->
  enrollment_course_run e = Some run ->
  get_from_id (course_id run) = inr ov ->
  days_until p e w =
    (Ok (Z.min (days (created e + expiration_period p - reading w))
               (days (regain_period p)
                - min3 (days (reading w - start ov))
                       (days (reading w - enrollment_created run))
                       (days (reading w - created e)))),
     tick w).
Proof.
  intros Hrep Hrun Hov. rewrite days_until_cases, Hrep, Hrun, Hov. reflexivity.
Qed.

Lemma days_until_unbound (p : CourseEntitlementPolicy) (e : CourseEntitlement)
    (w : World) :
  representable (created e + expiration_period p) = true ->
  enrollment_course_run e = None ->
  days_until p e w =
    (Ok (days (created e + expiration_period p - reading w)), tick w).
Proof.
  intros Hrep Hrun. rewrite days_until_cases, Hrep, Hrun. reflexivity.
Qed.

Lemma days_until_lookup_fails (p : CourseEntitlementPolicy)
    (e : CourseEntitlement) (w : World) (run : CourseEnrollment) (x : exn) :
  representable (created e + expiration_period p) = true ->
  enrollment_course_run e = Some run ->
  get_from_id (course_id run) = inl x ->
  days_until p e w = (Raise x, tick w).
Proof.
  intros Hrep Hrun Hov. rewrite days_until_cases, Hrep, Hrun, Hov. reflexivity.
Qed.

Lemma days_until_overflows (p : CourseEntitlementPolicy)
    (e : CourseEntitlement) (w : World) :
  representable (created e + expiration_period p) = false ->
  days_until p e w = (Raise (OverflowError "date value out of range"), tick w).
Proof. intros Hrep. rewrite days_until_cases, Hrep. reflexivity. Qed.

(** A day count that was returned had a representable expiry date. *)
Lemma days_until_returned (p : CourseEntitlementPolicy) (e : CourseEntitlement)
    (w w' : World) (d : Z) :
  days_until p e w = (Ok d, w') ->
  representable (created e + expiration_period p) = true.
Proof.
  rewrite days_until_cases.
  destruct (representable (created e + expiration_period p));
    [reflexivity | intros H; discriminate H].
Qed.

(** C1 (as amended).  With [now] the instant read from the clock, and
    provided the expiry date [created + expiration_period] is a
    representable datetime, [get_days_until_expiration] returns
    [base = floor ((created + expiration_period) - now)] in days when no
    enrolment is bound; when one is bound (and its course overview is
    found) it returns the minimum of [base] and [regain_period.days] minus
    the smallest of the days elapsed since the course start, since the
    enrolment was created and since the entitlement was created.  When the
    expiry date is not representable the addition raises [OverflowError]
    and nothing is returned. *)
Theorem get_days_until_expiration_value (p : CourseEntitlementPolicy)
    (e : CourseEntitlement) (w : World) :
  let now_timestamp := reading w in
  let remaining := created e + expiration_period p - now_timestamp in
  let base := days remaining in
  (base * MICROSECONDS_PER_DAY <= remaining < (base + 1) * MICROSECONDS_PER_DAY)
  /\ (representable (created e + expiration_period p) = true ->
      enrollment_course_run e = None ->
      days_until p e w = (Ok base, tick w))
  /\ (representable (created e + expiration_period p) = true ->
      forall run ov,
        enrollment_course_run e = Some run ->
        get_from_id (course_id run) = inr ov ->
        let since_start := days (now_timestamp - start ov) in
        let since_enrollment := days (now_timestamp - enrollment_created run) in
        let since_created := days (now_timestamp - created e) in
        let smallest := Z.min since_start (Z.min since_enrollment since_created) in
        smallest <= since_start /\ smallest <= since_enrollment
        /\ smallest <= since_created
        /\ days_until p e w =
             (Ok (Z.min base (days (regain_period p) - smallest)), tick w))
  /\ (representable (created e + expiration_period p) = false ->
      days_until p e w
      = (Raise (OverflowError "date value out of range"), tick w)).
Proof.
  cbv zeta. split; [apply days_floor | split; [| split]].
  - apply days_until_unbound.
  - intros Hrep run ov Hrun Hov.
    repeat split; try lia.
    exact (days_until_bound p e w run ov Hrep Hrun Hov).
  - apply days_until_overflows.
Qed.

(** *** Regaining *)

Lemma regainable_expired (p : CourseEntitlementPolicy) (e : CourseEntitlement)
    (w : World) :
  expired_at e <> None -> regainable p e w = (Ok false, w).
Proof.
  intros H. apply truthy_true in H. run. rewrite H. reflexivity.
Qed.

Lemma regainable_unbound (p : CourseEntitlementPolicy) (e : CourseEntitlement)
    (w : World) :
  enrollment_course_run e = None -> regainable p e w = (Ok false, w).
Proof.
  intros H. run. rewrite H. destruct (truthy (expired_at e)); reflexivity.
Qed.

Lemma regainable_certified (p : CourseEntitlementPolicy)
    (e : CourseEntitlement) (w : World) (run : CourseEnrollment) :
  enrollment_course_run e = Some run ->
  certificate (user e) (course_id run) = true ->
  regainable p e w = (Ok false, w).
Proof.
  intros Hrun Hcert. unfold is_entitlement_regainable. rewrite Hrun, Hcert.
  destruct (truthy (expired_at e)); reflexivity.
Qed.

(** Past the three guards the answer is that of the day count, whatever
    that one does. *)
Lemma regainable_defers (p : CourseEntitlementPolicy) (e : CourseEntitlement)
    (w : World) (run : CourseEnrollment) :
  expired_at e = None ->
  enrollment_course_run e = Some run ->
  certificate (user e) (course_id run) = false ->
  regainable p e w = (d <- days_until p e ;; ret (d >=? 0)) w.
Proof.
  intros Hexp Hrun Hcert. unfold is_entitlement_regainable.
  rewrite Hexp, Hrun, Hcert. reflexivity.
Qed.

Lemma regainable_by_days (p : CourseEntitlementPolicy) (e : CourseEntitlement)
    (w w1 : World) (run : CourseEnrollment) (d : Z) :
  expired_at e = None ->
  enrollment_course_run e = Some run ->
  certificate (user e) (course_id run) = false ->
  days_until p e w = (Ok d, w1) ->
  regainable p e w = (Ok (0 <=? d), w1).
Proof.
  intros Hexp Hrun Hcert Hd.
  rewrite (regainable_defers p e w run Hexp Hrun Hcert).
  unfold bind. rewrite Hd. unfold ret. rewrite Z.geb_leb. reflexivity.
Qed.

(** The regain boundary under the default periods, for an enrolment created
    at [T1] in a course that starts at [T1]. *)
Lemma regain_boundary (p : CourseEntitlementPolicy) (e : CourseEntitlement)
    (w : World) (run : CourseEnrollment) (ov : CourseOverview) (T1 : datetime) :
  expired_at e = None ->
  enrollment_course_run e = Some run ->
  certificate (user e) (course_id run) = false ->
  get_from_id (course_id run) = inr ov ->
  enrollment_created run = T1 ->
  start ov = T1 ->
  expiration_period p = expiration_period default_policy ->
  regain_period p = regain_period default_policy ->
  (reading w = T1 + timedelta_of_days 14 ->
     (regainable p e w = (Ok true, tick w)
      <-> representable (created e + timedelta_of_days 450) = true
          /\ T1 + timedelta_of_days 14 <= created e + timedelta_of_days 450))
  /\ (reading w = T1 + timedelta_of_days 15 ->
     (regainable p e w = (Ok false, tick w)
      <-> representable (created e + timedelta_of_days 450) = true
          /\ created e <= T1)).
Proof.
  intros Hexp Hrun Hcert Hov Hcreated Hstart Hep Hrp.
  destruct (representable (created e + expiration_period p)) eqn:Hrep.
  - pose proof (days_until_bound p e w run ov Hrep Hrun Hov) as Hd.
    rewrite Hep in Hrep. rewrite Hep, Hrp, Hcreated, Hstart in Hd.
    cbn [expiration_period regain_period default_policy] in Hd, Hrep.
    rewrite days_timedelta_of_days in Hd.
    unfold DEFAULT_EXPIRATION_PERIOD_DAYS in Hrep.
    split; intros Hnow; rewrite Hnow in Hd;
      rewrite (regainable_by_days p e w _ run _ Hexp Hrun Hcert Hd);
      clear Hd; rewrite Hrep;
      unfold DEFAULT_REGAIN_PERIOD_DAYS, DEFAULT_EXPIRATION_PERIOD_DAYS, min3.
    + replace (T1 + timedelta_of_days 14 - T1) with (timedelta_of_days 14) by lia.
      rewrite days_timedelta_of_days.
      pose proof (days_floor (created e + timedelta_of_days 450
                              - (T1 + timedelta_of_days 14))) as F1.
      pose proof (days_floor (T1 + timedelta_of_days 14 - created e)) as F2.
      unfold timedelta_of_days, MICROSECONDS_PER_DAY in *.
      rewrite ok_eq, Z.leb_le. lia.
    + replace (T1 + timedelta_of_days 15 - T1) with (timedelta_of_days 15) by lia.
      rewrite days_timedelta_of_days.
      pose proof (days_floor (created e + timedelta_of_days 450
                              - (T1 + timedelta_of_days 15))) as F1.
      pose proof (days_floor (T1 + timedelta_of_days 15 - created e)) as F2.
      unfold timedelta_of_days, MICROSECONDS_PER_DAY in *.
      rewrite ok_eq, Z.leb_gt. lia.
  - rewrite (regainable_defers p e w run Hexp Hrun Hcert). unfold bind.
    rewrite (days_until_overflows p e w Hrep).
    rewrite Hep in Hrep. cbn [expiration_period default_policy] in Hrep.
    unfold DEFAULT_EXPIRATION_PERIOD_DAYS in Hrep. rewrite Hrep.
    split; intros _; split; intros H;
      try discriminate H; destruct H as [H _]; discriminate H.
Qed.

(** C4 (as amended).  [is_entitlement_regainable] is false whenever
    [expired_at] is set or no enrolment is bound; with an enrolment bound
    it is false if a certificate exists for the learner and the course,
    and otherwise it is true exactly when [get_days_until_expiration] is
    at least zero.  For an enrolment created at [T1] in a course that
    starts at [T1], no certificate, [expired_at] unset and the default
    periods: at [T1 + 14 days] it is true exactly when the entitlement's
    own expiration (created + 450 days) is a representable datetime that
    has not passed by then, and at [T1 + 15 days] it is false exactly when
    that date is representable and the entitlement was created no later
    than [T1]. *)
Theorem is_entitlement_regainable_cases (p : CourseEntitlementPolicy)
    (e : CourseEntitlement) (w : World) :
  (expired_at e <> None -> regainable p e w = (Ok false, w))
  /\ (enrollment_course_run e = None -> regainable p e w = (Ok false, w))
  /\ (forall run,
        enrollment_course_run e = Some run ->
        certificate (user e) (course_id run) = true ->
        regainable p e w = (Ok false, w))
  /\ (forall run d w1,
        expired_at e = None ->
        enrollment_course_run e = Some run ->
        certificate (user e) (course_id run) = false ->
        days_until p e w = (Ok d, w1) ->
        exists b, regainable p e w = (Ok b, w1) /\ (b = true <-> d >= 0))
  /\ (forall run ov T1,
        expired_at e = None ->
        enrollment_course_run e = Some run ->
        certificate (user e) (course_id run) = false ->
        get_from_id (course_id run) = inr ov ->
        enrollment_created run = T1 ->
        start ov = T1 ->
        expiration_period p = expiration_period default_policy ->
        regain_period p = regain_period default_policy ->
        (reading w = T1 + timedelta_of_days 14 ->
           (regainable p e w = (Ok true, tick w)
            <-> representable (created e + timedelta_of_days 450) = true
                /\ T1 + timedelta_of_days 14
                   <= created e + timedelta_of_days 450))
        /\ (reading w = T1 + timedelta_of_days 15 ->
           (regainable p e w = (Ok false, tick w)
            <-> representable (created e + timedelta_of_days 450) = true
                /\ created e <= T1))).
Proof.
  split; [apply regainable_expired | split; [apply regainable_unbound | split]].
  - apply regainable_certified.
  - split.
    + intros run d w1 Hexp Hrun Hcert Hd. exists (0 <=? d). split.
      * exact (regainable_by_days p e w w1 run d Hexp Hrun Hcert Hd).
      * rewrite Z.leb_le. lia.
    + intros run ov T1. apply regain_boundary.
Qed.


(** *** Refunding *)

Lemma refundable_past_guards (p : CourseEntitlementPolicy)
    (e : CourseEntitlement) (w : World) :
  expired_at e = None ->
  order_number e <> None ->
  refundable p e w =
    if days (reading w - created e) >? days (refund_period p)
    then (Ok false, tick w)
    else if truthy (enrollment_course_run e)
         then regainable p e (tick w)
         else (Ok true, tick w).
Proof.
  intros Hexp Hord. unfold is_entitlement_refundable. rewrite Hexp.
  destruct (order_number e) as [o |]; [| congruence].
  cbn [truthy]. unfold get_days_since_created. step.
  destruct (days (reading w - created e) >? days (refund_period p));
    [reflexivity |].
  destruct (truthy (enrollment_course_run e)); reflexivity.
Qed.

(** C5.  [is_entitlement_refundable] is false if [expired_at] is set,
    false if there is no order number, and false if the days since
    creation strictly exceed [refund_period.days]; past these guards it
    equals [is_entitlement_regainable] when an enrolment is bound and is
    true otherwise.  With an order, unredeemed, not expired and under the
    default refund period it is true at [created + 60 days] and false at
    [created + 61 days]. *)
Theorem is_entitlement_refundable_cases (p : CourseEntitlementPolicy)
    (e : CourseEntitlement) (w : World) :
  let since_created := days (reading w - created e) in
  (expired_at e <> None -> refundable p e w = (Ok false, w))
  /\ (order_number e = None -> refundable p e w = (Ok false, w))
  /\ (expired_at e = None -> order_number e <> None ->
      since_created > days (refund_period p) ->
      refundable p e w = (Ok false, tick w))
  /\ (expired_at e = None -> order_number e <> None ->
      since_created <= days (refund_period p) ->
      enrollment_course_run e <> None ->
      refundable p e w = regainable p e (tick w))
  /\ (expired_at e = None -> order_number e <> None ->
      since_created <= days (refund_period p) ->
      enrollment_course_run e = None ->
      refundable p e w = (Ok true, tick w))
  /\ (expired_at e = None -> order_number e <> None ->
      enrollment_course_run e = None ->
      refund_period p = refund_period default_policy ->
      (reading w = created e + timedelta_of_days 60 ->
         refundable p e w = (Ok true, tick w))
      /\ (reading w = created e + timedelta_of_days 61 ->
         refundable p e w = (Ok false, tick w))).
Proof.
  cbv zeta. repeat apply conj.
  - intros H. apply truthy_true in H.
    unfold is_entitlement_refundable. rewrite H. reflexivity.
  - intros H. unfold is_entitlement_refundable. rewrite H.
    destruct (truthy (expired_at e)); reflexivity.
  - intros Hexp Hord Hd. rewrite (refundable_past_guards p e w Hexp Hord).
    destruct (Z.gtb_spec (days (reading w - created e)) (days (refund_period p)));
      [reflexivity | lia].
  - intros Hexp Hord Hd Hrun. rewrite (refundable_past_guards p e w Hexp Hord).
    destruct (Z.gtb_spec (days (reading w - created e)) (days (refund_period p)));
      [lia |].
    apply truthy_true in Hrun. rewrite Hrun. reflexivity.
  - intros Hexp Hord Hd Hrun. rewrite (refundable_past_guards p e w Hexp Hord).
    destruct (Z.gtb_spec (days (reading w - created e)) (days (refund_period p)));
      [lia |].
    rewrite Hrun. reflexivity.
  - intros Hexp Hord Hrun Hrp.
    rewrite (refundable_past_guards p e w Hexp Hord), Hrun, Hrp.
    cbn [refund_period default_policy truthy].
    unfold DEFAULT_REFUND_PERIOD_DAYS. rewrite days_timedelta_of_days.
    split; intros Hnow; rewrite Hnow.
    + replace (created e + timedelta_of_days 60 - created e)
        with (timedelta_of_days 60) by lia.
      rewrite days_timedelta_of_days. reflexivity.
    + replace (created e + timedelta_of_days 61 - created e)
        with (timedelta_of_days 61) by lia.
      rewrite days_timedelta_of_days. reflexivity.
Qed.

(** *** Redeeming *)

Lemma redeemable_value (p : CourseEntitlementPolicy) (e : CourseEntitlement)
    (w : World) :
  is_entitlement_redeemable p e w =
    (Ok ((days (reading w - created e) <? days (expiration_period p))
         && negb (truthy (enrollment_course_run e))
         && negb (truthy (expired_at e))),
     tick w).
Proof. reflexivity. Qed.

(** C6.  [is_entitlement_redeemable] always answers, and answers true
    exactly when the days since creation are strictly fewer than
    [expiration_period.days], no enrolment is bound and [expired_at] is
    unset; a true answer therefore implies unredeemed and unexpired.  Under
    the default expiration period an unredeemed, unexpired entitlement is
    redeemable while [now < created + 450 days], and no entitlement is
    redeemable at or after that instant. *)
Theorem is_entitlement_redeemable_iff (p : CourseEntitlementPolicy)
    (e : CourseEntitlement) (w : World) :
  (exists b,
     is_entitlement_redeemable p e w = (Ok b, tick w)
     /\ (b = true <->
         days (reading w - created e) < days (expiration_period p)
         /\ enrollment_course_run e = None
         /\ expired_at e = None))
  /\ (is_entitlement_redeemable p e w = (Ok true, tick w) ->
      enrollment_course_run e = None /\ expired_at e = None)
  /\ (expiration_period p = expiration_period default_policy ->
      (enrollment_course_run e = None -> expired_at e = None ->
       reading w < created e + timedelta_of_days 450 ->
       is_entitlement_redeemable p e w = (Ok true, tick w))
      /\ (created e + timedelta_of_days 450 <= reading w ->
          is_entitlement_redeemable p e w = (Ok false, tick w))).
Proof.
  assert (Hiff : forall b,
    b = (days (reading w - created e) <? days (expiration_period p))
        && negb (truthy (enrollment_course_run e))
        && negb (truthy (expired_at e)) ->
    (b = true <->
     days (reading w - created e) < days (expiration_period p)
     /\ enrollment_course_run e = None /\ expired_at e = None)).
  { intros b ->. rewrite !andb_true_iff, !negb_true_iff, !truthy_false, Z.ltb_lt.
    tauto. }
  split; [| split].
  - eexists. split; [apply redeemable_value | apply Hiff; reflexivity].
  - rewrite redeemable_value, ok_eq. intros H.
    symmetry in H. apply (Hiff true) in H. apply proj1 in H.
    specialize (H eq_refl). tauto.
  - intros Hep. rewrite redeemable_value, Hep.
    cbn [expiration_period default_policy].
    unfold DEFAULT_EXPIRATION_PERIOD_DAYS. rewrite days_timedelta_of_days.
    pose proof (days_lt_iff (reading w - created e) 450) as L.
    unfold timedelta_of_days in *. split.
    + intros Hrun Hexp Hnow. rewrite Hrun, Hexp. cbn [truthy negb].
      rewrite ok_eq, !andb_true_r. apply Z.ltb_lt. apply L. lia.
    + intros Hnow. rewrite ok_eq.
      replace (days (reading w - created e) <? 450) with false; [reflexivity |].
      symmetry. apply Z.ltb_ge.
      apply (days_ge_iff (reading w - created e) 450). lia.
Qed.


(** *** When the predicates raise *)

Lemma days_until_raises_iff (p : CourseEntitlementPolicy)
    (e : CourseEntitlement) (w w' : World) (x : exn) :
  days_until p e w = (Raise x, w') <->
  day_count_raises get_from_id p e x /\ w' = tick w.
Proof.
  unfold day_count_raises. rewrite days_until_cases.
  destruct (representable (created e + expiration_period p)).
  - destruct (enrollment_course_run e) as [run |] eqn:Hrun.
    + destruct (get_from_id (course_id run)) as [y | ov] eqn:Hov.
      * split.
        -- intros H. assert (y = x) by congruence. subst y.
           split; [| congruence]. right. split; [reflexivity |]. exists run. auto.
        -- intros [[[H _] | [_ [run' [Hr Hx]]]] ->]; [discriminate H |].
           assert (run' = run) by congruence; subst run'. congruence.
      * split; [intros H; discriminate H |].
        intros [[[H _] | [_ [run' [Hr Hx]]]] _]; [discriminate H |].
        assert (run' = run) by congruence; subst run'. congruence.
    + split; [intros H; discriminate H |].
      intros [[[H _] | [_ [run' [Hr _]]]] _]; discriminate.
  - split.
    + intros H. split; [| congruence]. left. split; [reflexivity | congruence].
    + intros [[[_ ->] | [H _]] ->]; [reflexivity | discriminate H].
Qed.

Lemma regainable_raises_iff (p : CourseEntitlementPolicy)
    (e : CourseEntitlement) (w w' : World) (x : exn) :
  regainable p e w = (Raise x, w') <->
  expired_at e = None
  /\ (exists run, enrollment_course_run e = Some run
                  /\ certificate (user e) (course_id run) = false)
  /\ day_count_raises get_from_id p e x
  /\ w' = tick w.
Proof.
  destruct (expired_at e) as [t |] eqn:Hexp.
  - rewrite regainable_expired by congruence. split.
    + intros H. discriminate H.
    + intros [H _]. discriminate H.
  - destruct (enrollment_course_run e) as [run |] eqn:Hrun.
    + destruct (certificate (user e) (course_id run)) eqn:Hcert.
      * rewrite (regainable_certified p e w run Hrun Hcert). split.
        -- intros H. discriminate H.
        -- intros [_ [[run' [Hr Hc]] _]].
           assert (run' = run) by congruence; subst run'. congruence.
      * rewrite (regainable_defers p e w run Hexp Hrun Hcert). unfold bind.
        destruct (days_until p e w) as [[d | y] w1] eqn:Hd.
        -- split; [intros H; discriminate H |].
           intros [_ [_ [Hraise Hw]]].
           assert (Hd' : days_until p e w = (Raise x, w'))
             by (apply days_until_raises_iff; auto).
           congruence.
        -- apply days_until_raises_iff in Hd. destruct Hd as [Hraise Hw].
           split.
           ++ intros H. assert (y = x) by congruence. subst y.
              split; [reflexivity |]. split; [exists run; auto |].
              split; [exact Hraise | congruence].
           ++ intros [_ [_ [Hraise' Hw']]].
              assert (Hd' : days_until p e w = (Raise x, w'))
                by (apply days_until_raises_iff; auto).
              assert (Hd'' : days_until p e w = (Raise y, w1))
                by (apply days_until_raises_iff; auto).
              congruence.
    + rewrite (regainable_unbound p e w Hrun). split.
      * intros H. discriminate H.
      * intros [_ [[run' [Hr _]] _]]. discriminate Hr.
Qed.

Lemma refundable_raises_iff (p : CourseEntitlementPolicy)
    (e : CourseEntitlement) (w w' : World) (x : exn) :
  refundable p e w = (Raise x, w') <->
  expired_at e = None
  /\ order_number e <> None
  /\ days (reading w - created e) <= days (refund_period p)
  /\ (exists run, enrollment_course_run e = Some run
                  /\ certificate (user e) (course_id run) = false)
  /\ day_count_raises get_from_id p e x
  /\ w' = tick (tick w).
Proof.
  destruct (expired_at e) as [t |] eqn:Hexp.
  { unfold is_entitlement_refundable. rewrite Hexp. cbn [truthy]. step. split.
    - intros H. discriminate H.
    - intros [H _]. discriminate H. }
  destruct (order_number e) as [o |] eqn:Hord.
  2:{ unfold is_entitlement_refundable. rewrite Hexp, Hord. cbn [truthy]. step.
      split.
      - intros H. discriminate H.
      - intros [_ [H _]]. congruence. }
  rewrite refundable_past_guards by congruence.
  destruct (Z.gtb_spec (days (reading w - created e)) (days (refund_period p)))
    as [G | G].
  { split.
    - intros H. discriminate H.
    - intros [_ [_ [H _]]]. lia. }
  destruct (enrollment_course_run e) as [run |] eqn:Hrun; cbn [truthy].
  - rewrite <- Hrun. rewrite regainable_raises_iff. rewrite Hrun.
    split.
    + intros [_ [Hex [Hraise Hw]]]. repeat split; try assumption; congruence.
    + intros [_ [_ [_ [Hex [Hraise Hw]]]]]. repeat split; assumption.
  - split.
    + intros H. discriminate H.
    + intros [_ [_ [_ [[run' [Hr _]] _]]]]. discriminate Hr.
Qed.

(** C9 (as amended).  None of the three computations handles a failure of
    the steps it takes.  Each raises exactly when its guards let it reach
    the day count and the day count raises, which happens in two ways: the
    expiry date [created + expiration_period] is not a representable
    datetime ([OverflowError]), or it is and the course overview lookup of
    the bound run raises (the lookup's own exception).  Otherwise each
    returns a value; nothing is defaulted to false. *)
Theorem predicates_raise_iff_day_count_raises (p : CourseEntitlementPolicy)
    (e : CourseEntitlement) (w : World) :
  (forall x w',
      days_until p e w = (Raise x, w') <->
      day_count_raises get_from_id p e x /\ w' = tick w)
  /\ (forall x w',
      regainable p e w = (Raise x, w') <->
      expired_at e = None
      /\ (exists run, enrollment_course_run e = Some run
                      /\ certificate (user e) (course_id run) = false)
      /\ day_count_raises get_from_id p e x
      /\ w' = tick w)
  /\ (forall x w',
      refundable p e w = (Raise x, w') <->
      expired_at e = None
      /\ order_number e <> None
      /\ days (reading w - created e) <= days (refund_period p)
      /\ (exists run, enrollment_course_run e = Some run
                      /\ certificate (user e) (course_id run) = false)
      /\ day_count_raises get_from_id p e x
      /\ w' = tick (tick w))
  /\ (representable (created e + expiration_period p) = true ->
      (forall run, enrollment_course_run e = Some run ->
                   exists ov, get_from_id (course_id run) = inr ov) ->
      (exists d w', days_until p e w = (Ok d, w'))
      /\ (exists b w', regainable p e w = (Ok b, w'))
      /\ (exists b w', refundable p e w = (Ok b, w'))).
Proof.
  split; [intros x w'; apply days_until_raises_iff |].
  split; [intros x w'; apply regainable_raises_iff |].
  split; [intros x w'; apply refundable_raises_iff |].
  intros Hrep Hfound.
  assert (Hno : forall x, day_count_raises get_from_id p e x -> False).
  { intros x [[H _] | [_ [run [Hrun Hx]]]]; [congruence |].
    destruct (Hfound run Hrun) as [ov Hov]. congruence. }
  repeat apply conj.
  - destruct (days_until p e w) as [[d | x] w'] eqn:H; [eauto |].
    apply days_until_raises_iff in H. destruct H as [H _].
    destruct (Hno x H).
  - destruct (regainable p e w) as [[b | x] w'] eqn:H; [eauto |].
    apply regainable_raises_iff in H. destruct H as [_ [_ [H _]]].
    destruct (Hno x H).
  - destruct (refundable p e w) as [[b | x] w'] eqn:H; [eauto |].
    apply refundable_raises_iff in H.
    destruct H as [_ [_ [_ [_ [H _]]]]].
    destruct (Hno x H).
Qed.

End PolicyProperties.

(** ** Properties of the entitlement *)

Section EntitlementProperties.

Variable get_from_id : CourseKey -> exn + CourseOverview.
Variable certificate : User -> CourseKey -> bool.

Local Abbreviation days_until := (get_days_until_expiration get_from_id).
Local Abbreviation regainable := (is_entitlement_regainable get_from_id certificate).
Local Abbreviation update := (update_expired_at get_from_id certificate).
Local Abbreviation update_times := (update_expired_at_times get_from_id certificate).

(** What an expiring call returns when the clock is read in world [w']. *)
Local Abbreviation expired_in self w' :=
  (Ok (with_expired_at (Some (reading w')) self),
   with_entitlements
     (upsert (with_expired_at (Some (reading w')) self) (entitlements w'))
     (tick w')).

(** *** Frames: what the reads leave untouched *)

Lemma days_until_world (p : CourseEntitlementPolicy) (e : CourseEntitlement)
    (w w' : World) (out : Outcome Z) :
  days_until p e w = (out, w') -> w' = tick w.
Proof.
  rewrite days_until_cases.
  destruct (representable (created e + expiration_period p));
    [| intros H; inversion H; reflexivity].
  destruct (enrollment_course_run e) as [run |].
  - destruct (get_from_id (course_id run)) as [x | ov];
      intros H; inversion H; reflexivity.
  - intros H. inversion H. reflexivity.
Qed.

Lemma regainable_world (p : CourseEntitlementPolicy) (e : CourseEntitlement)
    (w w' : World) (out : Outcome bool) :
  regainable p e w = (out, w') -> w' = w \/ w' = tick w.
Proof.
  unfold is_entitlement_regainable.
  destruct (truthy (expired_at e)); [intros H; inversion H; auto |].
  destruct (enrollment_course_run e) as [run |] eqn:Hrun;
    [| intros H; inversion H; auto].
  destruct (certificate (user e) (course_id run));
    [intros H; inversion H; auto |].
  unfold bind. destruct (days_until p e w) as [[d | x] w1] eqn:Hd;
    apply days_until_world in Hd; subst w1;
    intros H; inversion H; auto.
Qed.

(** *** Expiration *)

Lemma update_already_expired (self : CourseEntitlement) (w : World) :
  expired_at self <> None -> update self w = (Ok self, w).
Proof.
  intros H. apply truthy_true in H. unfold update_expired_at. rewrite H.
  reflexivity.
Qed.

Lemma update_by_condition (self : CourseEntitlement) (w : World) :
  expired_at self = None ->
  update self w =
    match expiry_condition get_from_id certificate self w with
    | (Ok true, w1) => expired_in self w1
    | (Ok false, w1) => (Ok self, w1)
    | (Raise x, w1) => (Raise x, w1)
    end.
Proof.
  intros H. unfold update_expired_at. rewrite H. cbn [truthy negb].
  unfold bind at 1.
  destruct (expiry_condition get_from_id certificate self w) as [[[|] | x] w1];
    reflexivity.
Qed.

Lemma expiry_condition_by_days (self : CourseEntitlement) (w : World) :
  expiry_condition get_from_id certificate self w =
    match days_until (policy self) self w with
    | (Ok d, w1) =>
        if d <? 0 then (Ok true, w1)
        else if truthy (enrollment_course_run self)
             then match regainable (policy self) self w1 with
                  | (Ok r, w2) => (Ok (negb r), w2)
                  | (Raise x, w2) => (Raise x, w2)
                  end
             else (Ok false, w1)
    | (Raise x, w1) => (Raise x, w1)
    end.
Proof.
  unfold expiry_condition, entitlement_is_entitlement_regainable.
  unfold bind at 1.
  destruct (days_until (policy self) self w) as [[d | x] w1]; [| reflexivity].
  destruct (d <? 0); [reflexivity |].
  destruct (truthy (enrollment_course_run self)); [| reflexivity].
  unfold bind.
  destruct (regainable (policy self) self w1) as [[r | x] w2]; reflexivity.
Qed.

Lemma expiry_condition_world (self : CourseEntitlement) (w w' : World)
    (out : Outcome bool) :
  expiry_condition get_from_id certificate self w = (out, w') ->
  entitlements w' = entitlements w.
Proof.
  rewrite expiry_condition_by_days.
  destruct (days_until (policy self) self w) as [[d | x] w1] eqn:Hd;
    apply days_until_world in Hd; subst w1.
  - destruct (d <? 0); [intros H; inversion H; reflexivity |].
    destruct (truthy (enrollment_course_run self));
      [| intros H; inversion H; reflexivity].
    destruct (regainable (policy self) self (tick w)) as [[r | x] w2] eqn:Hr;
      apply regainable_world in Hr;
      intros H; inversion H; subst; destruct Hr as [-> | ->]; reflexivity.
  - intros H. inversion H. reflexivity.
Qed.

(** An entitlement that was never redeemed, and whose expiry date is
    representable, is not expired by the evaluation before its expiration
    period has run out. *)
Lemma update_keeps_unredeemed_until_expiry (self : CourseEntitlement)
    (w : World) :
  expired_at self = None ->
  enrollment_course_run self = None ->
  representable (created self + expiration_period (policy self)) = true ->
  reading w <= created self + expiration_period (policy self) ->
  update self w = (Ok self, tick w).
Proof.
  intros Hexp Hrun Hrep Hnow.
  rewrite (update_by_condition self w Hexp), expiry_condition_by_days.
  rewrite (days_until_unbound get_from_id (policy self) self w Hrep Hrun).
  rewrite Hrun. cbn [truthy].
  replace (days (created self + expiration_period (policy self) - reading w) <? 0)
    with false; [reflexivity |].
  symmetry. apply Z.ltb_ge.
  apply (days_ge_iff (created self + expiration_period (policy self) - reading w) 0).
  lia.
Qed.

Lemma update_times_already_expired (n : nat) (self : CourseEntitlement)
    (w : World) :
  expired_at self <> None -> update_times n self w = (Ok self, w).
Proof.
  intros H. induction n as [| n IH]; [reflexivity |].
  cbn [update_expired_at_times]. unfold bind.
  rewrite (update_already_expired self w H). exact IH.
Qed.

(** C2.  [update_expired_at] does nothing when [expired_at] is set, so
    repeated calls never change it.  When it is unset, the call stamps
    [expired_at] with the clock and saves exactly when
    [get_days_until_expiration] is negative, or an enrolment is bound and
    the entitlement is not regainable; otherwise the entitlement is
    returned as it was.  Whatever the outcome, only [expired_at] can
    differ, and the table is written only together with it. *)
Theorem update_expired_at_exactly_when (self : CourseEntitlement) (w : World) :
  (expired_at self <> None -> update self w = (Ok self, w))
  /\ (forall n, expired_at self <> None -> update_times n self w = (Ok self, w))
  /\ (expired_at self = None ->
      forall d w1,
        entitlement_get_days_until_expiration get_from_id self w = (Ok d, w1) ->
        (d < 0 -> update self w = expired_in self w1)
        /\ (d >= 0 -> enrollment_course_run self = None ->
            update self w = (Ok self, w1))
        /\ (d >= 0 -> enrollment_course_run self <> None ->
            forall r w2,
              entitlement_is_entitlement_regainable get_from_id certificate
                self w1 = (Ok r, w2) ->
              (r = false -> update self w = expired_in self w2)
              /\ (r = true -> update self w = (Ok self, w2))))
  /\ (forall out w',
        update self w = (out, w') ->
        match out with
        | Ok self' =>
            (self' = self /\ entitlements w' = entitlements w)
            \/ (expired_at self = None
                /\ (exists t, self' = with_expired_at (Some t) self)
                /\ entitlements w' = upsert self' (entitlements w))
        | Raise _ => entitlements w' = entitlements w
        end).
Proof.
  split; [apply update_already_expired |].
  split; [intros n; apply update_times_already_expired |].
  split.
  - intros Hexp d w1 Hd.
    unfold entitlement_get_days_until_expiration in Hd.
    rewrite (update_by_condition self w Hexp), expiry_condition_by_days, Hd.
    repeat apply conj.
    + intros L. apply Z.ltb_lt in L. rewrite L. reflexivity.
    + intros L Hrun. replace (d <? 0) with false by (symmetry; apply Z.ltb_ge; lia).
      rewrite Hrun. reflexivity.
    + intros L Hrun r w2 Hr.
      unfold entitlement_is_entitlement_regainable in Hr.
      replace (d <? 0) with false by (symmetry; apply Z.ltb_ge; lia).
      apply truthy_true in Hrun. rewrite Hrun, Hr.
      split; intros ->; reflexivity.
  - intros out w' H. destruct (expired_at self) as [t |] eqn:Hexp.
    + rewrite update_already_expired in H by congruence.
      inversion H; subst. left. split; reflexivity.
    + rewrite (update_by_condition self w Hexp) in H.
      destruct (expiry_condition get_from_id certificate self w)
        as [[[|] | x] w1] eqn:Hc;
        apply expiry_condition_world in Hc; inversion H; subst.
      * right. split; [reflexivity | split; [eexists; reflexivity |]].
        cbn [entitlements with_entitlements]. rewrite Hc. reflexivity.
      * left. split; [reflexivity | exact Hc].
      * exact Hc.
Qed.

(** *** Binding an enrolment *)

Lemma upsert_In (e : CourseEntitlement) (rows : list CourseEntitlement) :
  In e (upsert e rows).
Proof.
  induction rows as [| r rows IH]; cbn [upsert]; [left; reflexivity |].
  destruct (id r =? id e); [left; reflexivity | right; exact IH].
Qed.

(** C8 (as amended).  [set_enrollment] makes no check of the current
    binding: whatever the entitlement holds, the call returns normally
    with [enrollment_course_run] set to the enrolment it was given, every
    other field as before, and the row saved.  An offering already bound is
    replaced. *)
Theorem set_enrollment_overwrites (self : CourseEntitlement)
    (enrollment : option CourseEnrollment) (w : World) :
  exists self' w',
    set_enrollment self enrollment w = (Ok self', w')
    /\ enrollment_course_run self' = enrollment
    /\ with_enrollment_course_run (enrollment_course_run self) self' = self
    /\ entitlements w' = upsert self' (entitlements w)
    /\ In self' (entitlements w')
    /\ clock w' = clock w /\ ticks w' = ticks w /\ log w' = log w.
Proof.
  exists (with_enrollment_course_run enrollment self).
  eexists. split; [reflexivity |].
  cbn [entitlements with_entitlements clock ticks log].
  repeat apply conj; try reflexivity.
  - destruct self; reflexivity.
  - apply upsert_In.
Qed.

End EntitlementProperties.

(** ** Properties of the queries *)

Lemma insert_by_created_perm (e : CourseEntitlement)
    (rows : list CourseEntitlement) :
  Permutation (insert_by_created e rows) (e :: rows).
Proof.
  induction rows as [| r rows IH]; cbn [insert_by_created]; [reflexivity |].
  destruct (created r <=? created e); [reflexivity |].
  rewrite IH. apply perm_swap.
Qed.

Lemma order_by_created_desc_perm (rows : list CourseEntitlement) :
  Permutation (order_by_created_desc rows) rows.
Proof.
  induction rows as [| r rows IH]; [reflexivity |].
  unfold order_by_created_desc in *. cbn [fold_right].
  rewrite insert_by_created_perm. apply perm_skip. exact IH.
Qed.

Lemma insert_by_created_sorted (e : CourseEntitlement)
    (rows : list CourseEntitlement) :
  newest_first rows -> newest_first (insert_by_created e rows).
Proof.
  unfold newest_first. induction rows as [| r rows IH]; intros Hs.
  - cbn. constructor; constructor.
  - cbn [insert_by_created]. inversion Hs as [| ? ? Hs' Hall]; subst.
    destruct (Z.leb_spec (created r) (created e)) as [L | L].
    + constructor; [exact Hs |]. constructor; [exact L |].
      eapply Forall_impl; [| exact Hall]. cbn. intros a Ha. lia.
    + constructor; [apply IH; exact Hs' |].
      apply (Permutation_Forall (Permutation_sym (insert_by_created_perm e rows))).
      constructor; [lia | exact Hall].
Qed.

Lemma order_by_created_desc_sorted (rows : list CourseEntitlement) :
  newest_first (order_by_created_desc rows).
Proof.
  induction rows as [| r rows IH].
  - constructor.
  - unfold order_by_created_desc in *. cbn [fold_right].
    apply insert_by_created_sorted. exact IH.
Qed.

Lemma expired_and_unredeemed_iff (e : CourseEntitlement) :
  expired_and_unredeemed e = true
  <-> expired_at e <> None /\ enrollment_course_run e = None.
Proof.
  unfold expired_and_unredeemed.
  rewrite andb_true_iff, negb_true_iff, truthy_true, truthy_false. tauto.
Qed.

Lemma expired_and_redeemed_iff (e : CourseEntitlement) :
  expired_and_redeemed e = true
  <-> expired_at e <> None /\ enrollment_course_run e <> None.
Proof.
  unfold expired_and_redeemed. rewrite andb_true_iff, !truthy_true. tauto.
Qed.

Lemma In_excluding (u : User) (excluded : CourseEntitlement -> bool)
    (rows : list CourseEntitlement) (e : CourseEntitlement) :
  In e (filter (fun e => negb (excluded e)) (filter (fun e => user e =? u) rows))
  <-> In e rows /\ user e = u /\ excluded e <> true.
Proof.
  rewrite !filter_In, negb_true_iff, Z.eqb_eq, not_true_iff_false. tauto.
Qed.

(** C7.  The active query returns the learner's entitlements except those
    that are expired and unredeemed; the fulfillable query returns the
    learner's entitlements except those that are expired and redeemed,
    newest first.  Neither changes the world.  Hence an expired and
    redeemed entitlement is active but not fulfillable, and an expired and
    unredeemed one is fulfillable but not active. *)
Theorem active_and_fulfillable_queries (u : User) (w : World) :
  exists active fulfillable,
    get_active_entitlements_for_user u w = (Ok active, w)
    /\ get_fulfillable_entitlements u w = (Ok fulfillable, w)
    /\ (forall e, In e active <->
                  In e (entitlements w) /\ user e = u
                  /\ ~ (expired_at e <> None /\ enrollment_course_run e = None))
    /\ (forall e, In e fulfillable <->
                  In e (entitlements w) /\ user e = u
                  /\ ~ (expired_at e <> None /\ enrollment_course_run e <> None))
    /\ Permutation fulfillable
         (filter (fun e => negb (expired_and_redeemed e))
            (filter (fun e => user e =? u) (entitlements w)))
    /\ newest_first fulfillable
    /\ (forall e, In e (entitlements w) -> user e = u ->
                  expired_at e <> None -> enrollment_course_run e <> None ->
                  In e active /\ ~ In e fulfillable)
    /\ (forall e, In e (entitlements w) -> user e = u ->
                  expired_at e <> None -> enrollment_course_run e = None ->
                  In e fulfillable /\ ~ In e active).
Proof.
  eexists. eexists. split; [reflexivity |]. split; [reflexivity |].
  assert (Hact : forall e,
    In e (filter (fun e => negb (expired_and_unredeemed e))
            (filter (fun e => user e =? u) (entitlements w)))
    <-> In e (entitlements w) /\ user e = u
        /\ ~ (expired_at e <> None /\ enrollment_course_run e = None)).
  { intros e. rewrite In_excluding, expired_and_unredeemed_iff. tauto. }
  assert (Hful : forall e,
    In e (order_by_created_desc
            (filter (fun e => negb (expired_and_redeemed e))
               (filter (fun e => user e =? u) (entitlements w))))
    <-> In e (entitlements w) /\ user e = u
        /\ ~ (expired_at e <> None /\ enrollment_course_run e <> None)).
  { intros e. rewrite <- expired_and_redeemed_iff, <- In_excluding. split.
    - apply Permutation_in, order_by_created_desc_perm.
    - apply Permutation_in, Permutation_sym, order_by_created_desc_perm. }
  split; [exact Hact |]. split; [exact Hful |].
  split; [apply order_by_created_desc_perm |].
  split; [apply order_by_created_desc_sorted |].
  split; intros e Hin Hu Hexp Hrun; rewrite Hact, Hful; tauto.
Qed.

(** ** Properties of redemption *)

Section RedemptionProperties.

Variable get_course_uuid : CourseKey -> option UUID.
Variable run_check : CourseKey -> option CourseEntitlement -> exn + bool.
Variable enroll : User -> CourseKey -> string -> M CourseEnrollment.

Local Abbreviation find_fulfillable :=
  (get_fulfillable_entitlement_for_user_course_run get_course_uuid run_check).
Local Abbreviation redeem_into := (enroll_user_and_fulfill_entitlement enroll).
Local Abbreviation check_and_redeem :=
  (check_for_existing_entitlement_and_enroll get_course_uuid run_check enroll).

(** The world after the handler has logged the failure. *)
Local Abbreviation logged_failure entitlement w1 :=
  {| clock := clock w1; ticks := ticks w1; entitlements := entitlements w1;
     log := log w1 ++ [("Login for Course Entitlement " ++ uuid entitlement
                        ++ " failed")%string] |}.

Lemma redeem_into_enrollment_error (entitlement : CourseEntitlement)
    (course_run_key : CourseKey) (w w1 : World) (x : exn) :
  enroll (user entitlement) course_run_key (mode entitlement) w = (Raise x, w1) ->
  is_CourseEnrollmentException x = true ->
  redeem_into entitlement course_run_key w
  = (Ok (false, entitlement), logged_failure entitlement w1).
Proof.
  intros Hen Hx.
  unfold enroll_user_and_fulfill_entitlement, transaction_atomic.
  unfold bind at 1. unfold try_except. unfold bind at 1.
  rewrite Hen, Hx. reflexivity.
Qed.

Lemma redeem_into_success (entitlement : CourseEntitlement)
    (course_run_key : CourseKey) (w w1 : World) (enrollment : CourseEnrollment) :
  enroll (user entitlement) course_run_key (mode entitlement) w
  = (Ok enrollment, w1) ->
  redeem_into entitlement course_run_key w
  = (Ok (true, with_enrollment_course_run (Some enrollment) entitlement),
     with_entitlements
       (upsert (with_enrollment_course_run (Some enrollment) entitlement)
               (entitlements w1)) w1).
Proof.
  intros Hen.
  unfold enroll_user_and_fulfill_entitlement, transaction_atomic.
  unfold bind at 1. unfold try_except. unfold bind at 1.
  rewrite Hen. reflexivity.
Qed.

(** Any other exception leaves the method, and the table is as it was on
    entry. *)
Lemma redeem_into_other_exception (entitlement : CourseEntitlement)
    (course_run_key : CourseKey) (w w1 : World) (x : exn) :
  enroll (user entitlement) course_run_key (mode entitlement) w = (Raise x, w1) ->
  is_CourseEnrollmentException x = false ->
  redeem_into entitlement course_run_key w
  = (Raise x, with_entitlements (entitlements w) w1).
Proof.
  intros Hen Hx.
  unfold enroll_user_and_fulfill_entitlement, transaction_atomic.
  unfold bind at 1. unfold try_except. unfold bind at 1.
  rewrite Hen, Hx. reflexivity.
Qed.

Lemma check_and_redeem_found (u : User) (course_run_key : CourseKey)
    (w0 w : World) (entitlement : CourseEntitlement) :
  find_fulfillable u course_run_key w0 = (Ok (Some entitlement), w) ->
  check_and_redeem u course_run_key w0
  = match redeem_into entitlement course_run_key w with
    | (Ok r, w2) => (Ok (fst r), w2)
    | (Raise x, w2) => (Raise x, w2)
    end.
Proof.
  intros Hfind. unfold check_for_existing_entitlement_and_enroll.
  unfold bind at 1. rewrite Hfind. unfold bind.
  destruct (redeem_into entitlement course_run_key w) as [[r | x] w2];
    reflexivity.
Qed.

(** C3.  When the enrolment service fails with a
    [CourseEnrollmentException], redeeming returns [False]; the entitlement
    object is the one that was passed in, bound offering included, and the
    entitlement table is the one the failed call left.  When the service
    succeeds, the enrolment it created is bound to the entitlement, the
    row is saved, and the result is [True].
    [check_for_existing_entitlement_and_enroll] answers the same way for
    the entitlement it found, and answers [False] without touching
    anything when it found none. *)
Theorem redeem_into_offering (entitlement : CourseEntitlement)
    (course_run_key : CourseKey) (w : World) :
  (forall x w1,
      enroll (user entitlement) course_run_key (mode entitlement) w
      = (Raise x, w1) ->
      is_CourseEnrollmentException x = true ->
      exists w2,
        redeem_into entitlement course_run_key w = (Ok (false, entitlement), w2)
        /\ entitlements w2 = entitlements w1
        /\ forall u w0,
             find_fulfillable u course_run_key w0 = (Ok (Some entitlement), w) ->
             check_and_redeem u course_run_key w0 = (Ok false, w2))
  /\ (forall enrollment w1,
        enroll (user entitlement) course_run_key (mode entitlement) w
        = (Ok enrollment, w1) ->
        exists entitlement' w2,
          redeem_into entitlement course_run_key w = (Ok (true, entitlement'), w2)
          /\ enrollment_course_run entitlement' = Some enrollment
          /\ entitlement' = with_enrollment_course_run (Some enrollment) entitlement
          /\ entitlements w2 = upsert entitlement' (entitlements w1)
          /\ In entitlement' (entitlements w2)
          /\ forall u w0,
               find_fulfillable u course_run_key w0 = (Ok (Some entitlement), w) ->
               check_and_redeem u course_run_key w0 = (Ok true, w2))
  /\ (forall u,
        find_fulfillable u course_run_key w = (Ok None, w) ->
        check_and_redeem u course_run_key w = (Ok false, w)).
Proof.
  repeat apply conj.
  - intros x w1 Hen Hx. eexists.
    split; [exact (redeem_into_enrollment_error _ _ _ _ _ Hen Hx) |].
    split; [reflexivity |].
    intros u w0 Hfind.
    rewrite (check_and_redeem_found u course_run_key w0 w entitlement Hfind).
    rewrite (redeem_into_enrollment_error _ _ _ _ _ Hen Hx). reflexivity.
  - intros enrollment w1 Hen. eexists. eexists.
    split; [exact (redeem_into_success _ _ _ _ _ Hen) |].
    split; [reflexivity |]. split; [reflexivity |].
    split; [reflexivity |].
    split; [cbn [entitlements with_entitlements]; apply upsert_In |].
    intros u w0 Hfind.
    rewrite (check_and_redeem_found u course_run_key w0 w entitlement Hfind).
    rewrite (redeem_into_success _ _ _ _ _ Hen). reflexivity.
  - intros u Hfind. unfold check_for_existing_entitlement_and_enroll.
    unfold bind. rewrite Hfind. reflexivity.
Qed.

(** *** Looking up the entitlement to redeem *)

Lemma fulfillable_value (u : User) (w : World) :
  get_fulfillable_entitlements u w
  = (Ok (order_by_created_desc
           (filter (fun e => negb (expired_and_redeemed e))
              (filter (fun e => user e =? u) (entitlements w)))), w).
Proof. reflexivity. Qed.

(** What the lookup does when the learner has fulfillable entitlements and
    none of them is for the course of the run: the outcome is that of the
    collaborator called with [None]. *)
Lemma find_fulfillable_no_match (u : User) (course_run_key : CourseKey)
    (w : World) (fulfillable : list CourseEntitlement) (c : UUID) :
  get_fulfillable_entitlements u w = (Ok fulfillable, w) ->
  fulfillable <> [] ->
  get_course_uuid course_run_key = Some c ->
  (forall e, In e fulfillable -> course_uuid e <> c) ->
  find_fulfillable u course_run_key w
  = match run_check course_run_key None with
    | inl x => (Raise x, w)
    | inr true => (Raise (NoneType_has_no_attribute "is_entitlement_redeemable"), w)
    | inr false => (Ok None, w)
    end.
Proof.
  intros Hful Hne Hc Hnone.
  unfold get_fulfillable_entitlement_for_user_course_run.
  unfold bind at 1. rewrite Hful.
  destruct fulfillable as [| e0 rest] eqn:E; [congruence |].
  rewrite <- E in *. rewrite Hc.
  assert (Hfilter : filter (fun e => String.eqb (course_uuid e) c) fulfillable = []).
  { clear E Hful Hne. induction fulfillable as [| e l IH]; [reflexivity |].
    cbn [filter]. destruct (String.eqb_spec (course_uuid e) c) as [Heq | Hneq].
    - exfalso. apply (Hnone e); [left; reflexivity | exact Heq].
    - apply IH. intros e' He'. apply Hnone. right. exact He'. }
  rewrite Hfilter. cbn [hd_error]. unfold bind, lift.
  destruct (run_check course_run_key None) as [x | [|]]; reflexivity.
Qed.

(** The paths on which the lookup does answer [None]. *)
Lemma find_fulfillable_none (u : User) (course_run_key : CourseKey) (w : World) :
  (get_fulfillable_entitlements u w = (Ok [], w) ->
   find_fulfillable u course_run_key w = (Ok None, w))
  /\ (get_course_uuid course_run_key = None ->
      find_fulfillable u course_run_key w = (Ok None, w)).
Proof.
  unfold get_fulfillable_entitlement_for_user_course_run. split.
  - intros H. unfold bind. rewrite H. reflexivity.
  - intros H. unfold bind. rewrite fulfillable_value, H.
    destruct (order_by_created_desc _); reflexivity.
Qed.

End RedemptionProperties.

(** ** The lookup on a run of another course *)

(** C10.  A learner holds one fulfillable entitlement, for course A, and
    the run asked about belongs to course B.  The filtered queryset is
    empty, [first()] yields [None], and that [None] is handed on: a check
    that accepts the run lets the lookup call a method on [None], and a
    check that reads the entitlement fails on it.  Either way the lookup
    raises [AttributeError] where its docstring promises [None]; it
    answers [None] only for a check that itself declines a missing
    entitlement. *)
Theorem lookup_raises_on_run_of_other_course :
  get_fulfillable_entitlements 7 (frozen T0 [purchased T0])
  = (Ok [purchased T0], frozen T0 [purchased T0])
  /\ catalog run_B = Some course_B
  /\ course_uuid (purchased T0) = course_A
  /\ get_fulfillable_entitlement_for_user_course_run catalog run_accepted
       7 run_B (frozen T0 [purchased T0])
     = (Raise (AttributeError
                 "'NoneType' object has no attribute 'is_entitlement_redeemable'"),
        frozen T0 [purchased T0])
  /\ get_fulfillable_entitlement_for_user_course_run catalog
       run_accepted_for_owner 7 run_B (frozen T0 [purchased T0])
     = (Raise (AttributeError "'NoneType' object has no attribute 'user'"),
        frozen T0 [purchased T0])
  /\ (forall run_check,
        get_fulfillable_entitlement_for_user_course_run catalog run_check
          7 run_B (frozen T0 [purchased T0])
        = (Ok None, frozen T0 [purchased T0])
        <-> run_check run_B None = inr false).
Proof.
  do 5 (split; [reflexivity |]).
  intros run_check.
  rewrite (find_fulfillable_no_match catalog run_check 7 run_B
             (frozen T0 [purchased T0]) [purchased T0] course_B).
  - destruct (run_check run_B None) as [x | [|]]; split; intros H;
      try discriminate H; reflexivity.
  - reflexivity.
  - intros H. discriminate H.
  - reflexivity.
  - intros e [<- | []] H. discriminate H.
Qed.

(** ** Counterexamples *)

(** Against C1 as first stated: an unredeemed entitlement under a policy
    whose expiration period is 3,000,000 days.  The claimed value is
    2999997 days, but the expiry date falls after the year 9999, the
    addition raises [OverflowError], and nothing is returned. *)
Lemma day_count_overflows_on_long_period :
  enrollment_course_run (purchased T0) = None
  /\ days (created (purchased T0) + expiration_period long_policy
           - reading (on_day 3 [])) = 2999997
  /\ DATETIME_MAX < created (purchased T0) + expiration_period long_policy
  /\ get_days_until_expiration (overview_starting T0) long_policy
       (purchased T0) (on_day 3 [])
     = (Raise (OverflowError "date value out of range"), tick (on_day 3 [])).
Proof. repeat apply conj; reflexivity. Qed.

(** Against C4 as first stated: an enrolment created at [T0] in a course
    starting at [T0], no certificate, default policy, the clock at
    [T0 + 14 days] — and the entitlement is not regainable, because it was
    bought 440 days before and its own 450 days ran out four days ago. *)
Lemma regain_boundary_cut_by_expiration :
  expired_at redeemed_late = None
  /\ enrollment_course_run redeemed_late = Some (enrolled T0)
  /\ enrollment_created (enrolled T0) = T0
  /\ overview_starting T0 (course_id (enrolled T0)) = inr {| start := T0 |}
  /\ no_certificate (user redeemed_late) (course_id (enrolled T0)) = false
  /\ policy redeemed_late = default_policy
  /\ get_days_until_expiration (overview_starting T0) default_policy
       redeemed_late (frozen (T0 + timedelta_of_days 14) [redeemed_late])
     = (Ok (-4), tick (frozen (T0 + timedelta_of_days 14) [redeemed_late]))
  /\ is_entitlement_regainable (overview_starting T0) no_certificate
       default_policy redeemed_late
       (frozen (T0 + timedelta_of_days 14) [redeemed_late])
     = (Ok false, tick (frozen (T0 + timedelta_of_days 14) [redeemed_late])).
Proof. repeat apply conj; reflexivity. Qed.

(** Against C8 as first stated: the entitlement is bound to an enrolment
    in run A; [set_enrollment] with an enrolment in run B returns normally
    and the entitlement, object and row, is now bound to run B. *)
Lemma set_enrollment_replaces_bound_offering :
  enrollment_course_run (redeemed T0 T0) = Some (enrolled T0)
  /\ set_enrollment (redeemed T0 T0) (Some (enrolled_in_B (T0 + D)))
       (frozen (T0 + D) [redeemed T0 T0])
     = (Ok (with_enrollment_course_run (Some (enrolled_in_B (T0 + D)))
              (redeemed T0 T0)),
        frozen (T0 + D)
          [with_enrollment_course_run (Some (enrolled_in_B (T0 + D)))
             (redeemed T0 T0)])
  /\ enrollment_course_run
       (with_enrollment_course_run (Some (enrolled_in_B (T0 + D)))
          (redeemed T0 T0))
     = Some (enrolled_in_B (T0 + D))
  /\ enrolled_in_B (T0 + D) <> enrolled T0.
Proof.
  repeat apply conj; try reflexivity.
  intros H. discriminate H.
Qed.

(** Against C9 as first stated: the course overview of the bound run
    cannot be loaded, and each of the three computations raises the
    lookup's exception instead of answering. *)
Lemma predicates_raise_when_overview_missing :
  get_days_until_expiration overview_missing default_policy (redeemed T0 T0)
    (frozen (T0 + D) [redeemed T0 T0])
  = (Raise (DoesNotExist "CourseOverview"),
     tick (frozen (T0 + D) [redeemed T0 T0]))
  /\ is_entitlement_regainable overview_missing no_certificate default_policy
       (redeemed T0 T0) (frozen (T0 + D) [redeemed T0 T0])
     = (Raise (DoesNotExist "CourseOverview"),
        tick (frozen (T0 + D) [redeemed T0 T0]))
  /\ is_entitlement_refundable overview_missing no_certificate default_policy
       (redeemed T0 T0) (frozen (T0 + D) [redeemed T0 T0])
     = (Raise (DoesNotExist "CourseOverview"),
        tick (tick (frozen (T0 + D) [redeemed T0 T0]))).
Proof. repeat apply conj; reflexivity. Qed.

(** ** Instances

    Each statement above that carries hypotheses, applied to the sample
    data. *)

Lemma get_days_until_expiration_value_witness :
  representable (created (purchased T0) + expiration_period default_policy)
  = true
  /\ enrollment_course_run (purchased T0) = None
  /\ get_days_until_expiration (overview_starting T0) default_policy
       (purchased T0) (on_day 3 [])
     = (Ok 447, tick (on_day 3 []))
  /\ enrollment_course_run (redeemed T0 T0) = Some (enrolled T0)
  /\ get_days_until_expiration (overview_starting T0) default_policy
       (redeemed T0 T0) (on_day 3 [])
     = (Ok 11, tick (on_day 3 []))
  /\ representable (created (purchased T0) + expiration_period long_policy)
     = false
  /\ get_days_until_expiration (overview_starting T0) long_policy
       (purchased T0) (on_day 3 [])
     = (Raise (OverflowError "date value out of range"), tick (on_day 3 [])).
Proof.
  pose proof (get_days_until_expiration_value (overview_starting T0)
                default_policy (purchased T0) (on_day 3 [])) as [_ [U _]].
  pose proof (get_days_until_expiration_value (overview_starting T0)
                default_policy (redeemed T0 T0) (on_day 3 [])) as [_ [_ [B _]]].
  pose proof (get_days_until_expiration_value (overview_starting T0)
                long_policy (purchased T0) (on_day 3 [])) as [_ [_ [_ O]]].
  split; [reflexivity |].
  split; [reflexivity |].
  split; [exact (U eq_refl eq_refl) |].
  split; [reflexivity |].
  split; [exact (proj2 (proj2 (proj2
             (B eq_refl (enrolled T0) {| start := T0 |} eq_refl eq_refl)))) |].
  split; [reflexivity |].
  exact (O eq_refl).
Defined.

Lemma update_expired_at_exactly_when_witness :
  expired_at (purchased T0) = None
  /\ entitlement_get_days_until_expiration (overview_starting T0)
       (purchased T0) (on_day 451 [purchased T0])
     = (Ok (-1), tick (on_day 451 [purchased T0]))
  /\ update_expired_at (overview_starting T0) no_certificate (purchased T0)
       (on_day 451 [purchased T0])
     = (Ok (with_expired_at (Some (T0 + timedelta_of_days 451)) (purchased T0)),
        tick (tick (on_day 451
          [with_expired_at (Some (T0 + timedelta_of_days 451)) (purchased T0)])))
  /\ update_expired_at_times (overview_starting T0) no_certificate 3
       (with_expired_at (Some (T0 + timedelta_of_days 451)) (purchased T0))
       (on_day 452 [])
     = (Ok (with_expired_at (Some (T0 + timedelta_of_days 451)) (purchased T0)),
        on_day 452 []).
Proof.
  split; [reflexivity |]. split; [reflexivity |]. split.
  - pose proof (update_expired_at_exactly_when (overview_starting T0)
                  no_certificate (purchased T0) (on_day 451 [purchased T0]))
      as [_ [_ [H _]]].
    destruct (H eq_refl (-1) (tick (on_day 451 [purchased T0])) eq_refl)
      as [Hneg _].
    exact (Hneg eq_refl).
  - pose proof (update_expired_at_exactly_when (overview_starting T0)
                  no_certificate
                  (with_expired_at (Some (T0 + timedelta_of_days 451))
                     (purchased T0))
                  (on_day 452 [])) as [_ [H _]].
    apply (H 3%nat). intros E. discriminate E.
Defined.

Lemma is_entitlement_regainable_cases_witness :
  representable (created (redeemed T0 T0) + timedelta_of_days 450) = true
  /\ T0 + timedelta_of_days 14 <= created (redeemed T0 T0) + timedelta_of_days 450
  /\ created (redeemed T0 T0) <= T0
  /\ is_entitlement_regainable (overview_starting T0) no_certificate
       default_policy (redeemed T0 T0) (on_day 14 [])
     = (Ok true, tick (on_day 14 []))
  /\ is_entitlement_regainable (overview_starting T0) no_certificate
       default_policy (redeemed T0 T0) (on_day 15 [])
     = (Ok false, tick (on_day 15 [])).
Proof.
  assert (Hrep : representable (created (redeemed T0 T0) + timedelta_of_days 450)
                 = true) by reflexivity.
  assert (H14 : T0 + timedelta_of_days 14
                <= created (redeemed T0 T0) + timedelta_of_days 450)
    by (intros E; discriminate E).
  assert (H15 : created (redeemed T0 T0) <= T0)
    by (intros E; discriminate E).
  split; [exact Hrep |]. split; [exact H14 |]. split; [exact H15 |]. split.
  - pose proof (is_entitlement_regainable_cases (overview_starting T0)
                  no_certificate default_policy (redeemed T0 T0) (on_day 14 []))
      as [_ [_ [_ [_ H]]]].
    destruct (H (enrolled T0) {| start := T0 |} T0
                eq_refl eq_refl eq_refl eq_refl eq_refl eq_refl eq_refl eq_refl)
      as [Hat14 _].
    exact (proj2 (Hat14 eq_refl) (conj Hrep H14)).
  - pose proof (is_entitlement_regainable_cases (overview_starting T0)
                  no_certificate default_policy (redeemed T0 T0) (on_day 15 []))
      as [_ [_ [_ [_ H]]]].
    destruct (H (enrolled T0) {| start := T0 |} T0
                eq_refl eq_refl eq_refl eq_refl eq_refl eq_refl eq_refl eq_refl)
      as [_ Hat15].
    exact (proj2 (Hat15 eq_refl) (conj Hrep H15)).
Defined.

Lemma is_entitlement_refundable_cases_witness :
  expired_at (purchased T0) = None
  /\ order_number (purchased T0) <> None
  /\ enrollment_course_run (purchased T0) = None
  /\ is_entitlement_refundable (overview_starting T0) no_certificate
       default_policy (purchased T0) (on_day 60 [])
     = (Ok true, tick (on_day 60 []))
  /\ is_entitlement_refundable (overview_starting T0) no_certificate
       default_policy (purchased T0) (on_day 61 [])
     = (Ok false, tick (on_day 61 [])).
Proof.
  assert (Hord : order_number (purchased T0) <> None)
    by (intros E; discriminate E).
  split; [reflexivity |]. split; [exact Hord |]. split; [reflexivity |]. split.
  - pose proof (is_entitlement_refundable_cases (overview_starting T0)
                  no_certificate default_policy (purchased T0) (on_day 60 []))
      as [_ [_ [_ [_ [_ H]]]]].
    exact (proj1 (H eq_refl Hord eq_refl eq_refl) eq_refl).
  - pose proof (is_entitlement_refundable_cases (overview_starting T0)
                  no_certificate default_policy (purchased T0) (on_day 61 []))
      as [_ [_ [_ [_ [_ H]]]]].
    exact (proj2 (H eq_refl Hord eq_refl eq_refl) eq_refl).
Defined.

Lemma is_entitlement_redeemable_iff_witness :
  reading (on_day 449 []) < created (purchased T0) + timedelta_of_days 450
  /\ is_entitlement_redeemable default_policy (purchased T0) (on_day 449 [])
     = (Ok true, tick (on_day 449 []))
  /\ created (purchased T0) + timedelta_of_days 450 <= reading (on_day 450 [])
  /\ is_entitlement_redeemable default_policy (purchased T0) (on_day 450 [])
     = (Ok false, tick (on_day 450 [])).
Proof.
  assert (Hbefore : reading (on_day 449 [])
                    < created (purchased T0) + timedelta_of_days 450)
    by reflexivity.
  assert (Hafter : created (purchased T0) + timedelta_of_days 450
                   <= reading (on_day 450 []))
    by (intros E; discriminate E).
  split; [exact Hbefore |]. split.
  - pose proof (is_entitlement_redeemable_iff default_policy (purchased T0)
                  (on_day 449 [])) as [_ [_ H]].
    exact (proj1 (H eq_refl) eq_refl eq_refl Hbefore).
  - split; [exact Hafter |].
    pose proof (is_entitlement_redeemable_iff default_policy (purchased T0)
                  (on_day 450 [])) as [_ [_ H]].
    exact (proj2 (H eq_refl) Hafter).
Defined.

Lemma redeem_into_offering_witness :
  (* the lookup finds the learner's entitlement for the course of the run *)
  get_fulfillable_entitlement_for_user_course_run catalog
    run_accepted_for_owner 7 run_A (on_day 1 [purchased T0])
  = (Ok (Some (purchased T0)), tick (on_day 1 [purchased T0]))
  (* the course is full *)
  /\ (exists w2,
        enroll_user_and_fulfill_entitlement enroll_course_full (purchased T0)
          run_A (tick (on_day 1 [purchased T0]))
        = (Ok (false, purchased T0), w2)
        /\ entitlements w2 = [purchased T0]
        /\ check_for_existing_entitlement_and_enroll catalog
             run_accepted_for_owner enroll_course_full 7 run_A
             (on_day 1 [purchased T0])
           = (Ok false, w2))
  (* the enrolment goes through *)
  /\ (exists w2,
        enroll_user_and_fulfill_entitlement enroll_succeeds (purchased T0)
          run_A (tick (on_day 1 [purchased T0]))
        = (Ok (true, redeemed T0 (T0 + timedelta_of_days 1)), w2)
        /\ entitlements w2 = [redeemed T0 (T0 + timedelta_of_days 1)]
        /\ check_for_existing_entitlement_and_enroll catalog
             run_accepted_for_owner enroll_succeeds 7 run_A
             (on_day 1 [purchased T0])
           = (Ok true, w2)).
Proof.
  split; [reflexivity | split].
  - destruct (redeem_into_offering catalog run_accepted_for_owner
                enroll_course_full (purchased T0) run_A
                (tick (on_day 1 [purchased T0]))) as [Hfail _].
    destruct (Hfail (CourseEnrollmentException "CourseFullError")
                (tick (on_day 1 [purchased T0])) eq_refl eq_refl)
      as [w2 [Hr [Ht Hc]]].
    exists w2. split; [exact Hr |]. split; [exact Ht |].
    exact (Hc 7 (on_day 1 [purchased T0]) eq_refl).
  - destruct (redeem_into_offering catalog run_accepted_for_owner
                enroll_succeeds (purchased T0) run_A
                (tick (on_day 1 [purchased T0]))) as [_ [Hok _]].
    destruct (Hok (enrolled (T0 + timedelta_of_days 1))
                (tick (tick (on_day 1 [purchased T0]))) eq_refl)
      as [e' [w2 [Hr [_ [He [Ht [_ Hc]]]]]]].
    exists w2. subst e'. split; [exact Hr |]. split; [exact Ht |].
    exact (Hc 7 (on_day 1 [purchased T0]) eq_refl).
Defined.

Lemma active_and_fulfillable_queries_witness :
  exists active fulfillable,
    get_active_entitlements_for_user 7
      (on_day 460 [with_expired_at (Some (T0 + timedelta_of_days 451))
                     (purchased T0);
                   with_expired_at (Some (T0 + timedelta_of_days 20))
                     (redeemed T0 T0)])
    = (Ok active,
       on_day 460 [with_expired_at (Some (T0 + timedelta_of_days 451))
                     (purchased T0);
                   with_expired_at (Some (T0 + timedelta_of_days 20))
                     (redeemed T0 T0)])
    /\ get_fulfillable_entitlements 7
         (on_day 460 [with_expired_at (Some (T0 + timedelta_of_days 451))
                        (purchased T0);
                      with_expired_at (Some (T0 + timedelta_of_days 20))
                        (redeemed T0 T0)])
       = (Ok fulfillable,
          on_day 460 [with_expired_at (Some (T0 + timedelta_of_days 451))
                        (purchased T0);
                      with_expired_at (Some (T0 + timedelta_of_days 20))
                        (redeemed T0 T0)])
    /\ (In (with_expired_at (Some (T0 + timedelta_of_days 20)) (redeemed T0 T0))
          active
        /\ ~ In (with_expired_at (Some (T0 + timedelta_of_days 20))
                   (redeemed T0 T0)) fulfillable)
    /\ (In (with_expired_at (Some (T0 + timedelta_of_days 451)) (purchased T0))
          fulfillable
        /\ ~ In (with_expired_at (Some (T0 + timedelta_of_days 451))
                   (purchased T0)) active).
Proof.
  destruct (active_and_fulfillable_queries 7
              (on_day 460 [with_expired_at (Some (T0 + timedelta_of_days 451))
                             (purchased T0);
                           with_expired_at (Some (T0 + timedelta_of_days 20))
                             (redeemed T0 T0)]))
    as [active [fulfillable [Ha [Hf [_ [_ [_ [_ [Hredeemed Hunredeemed]]]]]]]]].
  exists active, fulfillable.
  split; [exact Ha |]. split; [exact Hf |]. split.
  - apply Hredeemed.
    + right. left. reflexivity.
    + reflexivity.
    + intros E. discriminate E.
    + intros E. discriminate E.
  - apply Hunredeemed.
    + left. reflexivity.
    + reflexivity.
    + intros E. discriminate E.
    + reflexivity.
Defined.

Lemma predicates_raise_iff_day_count_raises_witness :
  (exists d w', get_days_until_expiration (overview_starting T0)
                  default_policy (redeemed T0 T0) (on_day 3 [])
                = (Ok d, w'))
  /\ (exists b w', is_entitlement_regainable (overview_starting T0)
                     no_certificate default_policy (redeemed T0 T0)
                     (on_day 3 [])
                   = (Ok b, w'))
  /\ (exists b w', is_entitlement_refundable (overview_starting T0)
                     no_certificate default_policy (redeemed T0 T0)
                     (on_day 3 [])
                   = (Ok b, w'))
  /\ is_entitlement_regainable overview_missing no_certificate default_policy
       (redeemed T0 T0) (on_day 3 [])
     = (Raise (DoesNotExist "CourseOverview"), tick (on_day 3 []))
  /\ get_days_until_expiration (overview_starting T0) long_policy
       (purchased T0) (on_day 3 [])
     = (Raise (OverflowError "date value out of range"), tick (on_day 3 [])).
Proof.
  destruct (predicates_raise_iff_day_count_raises (overview_starting T0)
              no_certificate default_policy (redeemed T0 T0) (on_day 3 []))
    as [_ [_ [_ Hfound]]].
  destruct (predicates_raise_iff_day_count_raises overview_missing
              no_certificate default_policy (redeemed T0 T0) (on_day 3 []))
    as [_ [Hraise _]].
  destruct (predicates_raise_iff_day_count_raises (overview_starting T0)
              no_certificate long_policy (purchased T0) (on_day 3 []))
    as [Hover _].
  destruct Hfound as [Hd [Hr Hf]].
  { reflexivity. }
  { intros run _. exists {| start := T0 |}. reflexivity. }
  split; [exact Hd |]. split; [exact Hr |]. split; [exact Hf |]. split.
  - apply Hraise. split; [reflexivity |].
    split; [exists (enrolled T0); split; reflexivity |].
    split; [| reflexivity].
    right. split; [reflexivity |]. exists (enrolled T0). split; reflexivity.
  - apply Hover. split; [| reflexivity]. left. split; reflexivity.
Defined.

(** ** The day count over time *)

Lemma days_monotone (a b : timedelta) : a <= b -> days a <= days b.
Proof.
  intros H. unfold days, MICROSECONDS_PER_DAY. apply Z.div_le_mono; lia.
Qed.

Section TimeProperties.

Variable get_from_id : CourseKey -> exn + CourseOverview.
Variable certificate : User -> CourseKey -> bool.

Local Abbreviation days_until := (get_days_until_expiration get_from_id).
Local Abbreviation regainable := (is_entitlement_regainable get_from_id certificate).
Local Abbreviation update := (update_expired_at get_from_id certificate).

(** The day count as a function of the instant read, for an entitlement
    whose lookup succeeds or is not needed. *)
Lemma days_until_at (p : CourseEntitlementPolicy) (e : CourseEntitlement)
    (w w' : World) (d : Z) :
  days_until p e w = (Ok d, w') ->
  w' = tick w
  /\ representable (created e + expiration_period p) = true
  /\ (enrollment_course_run e = None
      /\ d = days (created e + expiration_period p - reading w)
      \/ exists run ov,
           enrollment_course_run e = Some run
           /\ get_from_id (course_id run) = inr ov
           /\ d = Z.min (days (created e + expiration_period p - reading w))
                    (days (regain_period p)
                     - min3 (days (reading w - start ov))
                            (days (reading w - enrollment_created run))
                            (days (reading w - created e)))).
Proof.
  intros H.
  pose proof (days_until_returned get_from_id p e w w' d H) as Hrep.
  destruct (enrollment_course_run e) as [run |] eqn:Hrun.
  - destruct (get_from_id (course_id run)) as [x | ov] eqn:Hov.
    + rewrite (days_until_lookup_fails get_from_id p e w run x Hrep Hrun Hov)
        in H.
      discriminate H.
    + rewrite (days_until_bound get_from_id p e w run ov Hrep Hrun Hov) in H.
      inversion H; subst. split; [reflexivity | split; [exact Hrep |]].
      right. exists run, ov. auto.
  - rewrite (days_until_unbound get_from_id p e w Hrep Hrun) in H.
    inversion H; subst. split; [reflexivity | split; [exact Hrep |]].
    left. auto.
Qed.

Lemma day_count_antitone (p : CourseEntitlementPolicy) (e : CourseEntitlement)
    (run : CourseEnrollment) (ov : CourseOverview) (t1 t2 : datetime) :
  t1 <= t2 ->
  Z.min (days (created e + expiration_period p - t2))
    (days (regain_period p)
     - min3 (days (t2 - start ov)) (days (t2 - enrollment_created run))
            (days (t2 - created e)))
  <= Z.min (days (created e + expiration_period p - t1))
       (days (regain_period p)
        - min3 (days (t1 - start ov)) (days (t1 - enrollment_created run))
               (days (t1 - created e))).
Proof.
  intros Hle.
  pose proof (days_monotone (created e + expiration_period p - t2)
                (created e + expiration_period p - t1) ltac:(lia)).
  pose proof (days_monotone (t1 - start ov) (t2 - start ov) ltac:(lia)).
  pose proof (days_monotone (t1 - enrollment_created run)
                (t2 - enrollment_created run) ltac:(lia)).
  pose proof (days_monotone (t1 - created e) (t2 - created e) ltac:(lia)).
  unfold min3. lia.
Qed.

(** The day count never grows as the clock advances. *)
Theorem days_until_never_grows (p : CourseEntitlementPolicy)
    (e : CourseEntitlement) (w1 w2 w1' w2' : World) (d1 d2 : Z) :
  reading w1 <= reading w2 ->
  days_until p e w1 = (Ok d1, w1') ->
  days_until p e w2 = (Ok d2, w2') ->
  d2 <= d1.
Proof.
  intros Hle H1 H2.
  apply days_until_at in H1. apply days_until_at in H2.
  destruct H1 as [_ [_ H1]], H2 as [_ [_ H2]].
  destruct H1 as [[Hrun ->] | [run [ov [Hrun [Hov ->]]]]];
    destruct H2 as [[Hrun2 ->] | [run2 [ov2 [Hrun2 [Hov2 ->]]]]];
    try congruence.
  - apply days_monotone. lia.
  - assert (run2 = run) by congruence. subst run2.
    assert (ov2 = ov) by congruence. subst ov2.
    apply day_count_antitone. exact Hle.
Qed.

(** Binding an enrolment never extends the time left: the day count of an
    entitlement is at most the count of its plain expiration period, which
    is what the same entitlement returns with no enrolment bound. *)
Theorem days_until_at_most_unbound (p : CourseEntitlementPolicy)
    (e : CourseEntitlement) (w w' : World) (d : Z) :
  days_until p e w = (Ok d, w') ->
  exists base,
    days_until p (with_enrollment_course_run None e) w = (Ok base, tick w)
    /\ base = days (created e + expiration_period p - reading w)
    /\ d <= base.
Proof.
  intros H. apply days_until_at in H. destruct H as [_ [Hrep H]].
  eexists. split; [apply days_until_unbound; [exact Hrep | reflexivity] |].
  cbn [created with_enrollment_course_run]. split; [reflexivity |].
  destruct H as [[_ ->] | [run [ov [_ [_ ->]]]]]; lia.
Qed.

(** If the entitlement is regainable at some instant, it was regainable at
    every earlier one. *)
Theorem regainable_earlier (p : CourseEntitlementPolicy)
    (e : CourseEntitlement) (w1 w2 w2' : World) :
  reading w1 <= reading w2 ->
  regainable p e w2 = (Ok true, w2') ->
  regainable p e w1 = (Ok true, tick w1).
Proof.
  intros Hle H2.
  destruct (expired_at e) as [t |] eqn:Hexp.
  { rewrite regainable_expired in H2 by congruence. discriminate H2. }
  destruct (enrollment_course_run e) as [run |] eqn:Hrun.
  2:{ rewrite regainable_unbound in H2 by assumption. discriminate H2. }
  destruct (certificate (user e) (course_id run)) eqn:Hcert.
  { rewrite (regainable_certified get_from_id certificate p e w2 run Hrun Hcert)
      in H2. discriminate H2. }
  rewrite (regainable_defers get_from_id certificate p e w2 run Hexp Hrun Hcert)
    in H2.
  unfold bind in H2.
  destruct (days_until p e w2) as [[d2 | x] w2''] eqn:Hd2; [| discriminate H2].
  unfold ret in H2. assert (Hge : (d2 >=? 0) = true) by congruence.
  pose proof (days_until_returned get_from_id p e w2 _ d2 Hd2) as Hrep.
  destruct (get_from_id (course_id run)) as [x | ov] eqn:Hov.
  { rewrite (days_until_lookup_fails get_from_id p e w2 run x Hrep Hrun Hov)
      in Hd2.
    discriminate Hd2. }
  pose proof (days_until_bound get_from_id p e w1 run ov Hrep Hrun Hov) as Hd1.
  rewrite (days_until_bound get_from_id p e w2 run ov Hrep Hrun Hov) in Hd2.
  assert (Hd2' : d2 = Z.min (days (created e + expiration_period p - reading w2))
                   (days (regain_period p)
                    - min3 (days (reading w2 - start ov))
                           (days (reading w2 - enrollment_created run))
                           (days (reading w2 - created e)))) by congruence.
  pose proof (day_count_antitone p e run ov (reading w1) (reading w2) Hle)
    as Hmono.
  rewrite <- Hd2' in Hmono.
  rewrite (regainable_by_days get_from_id certificate p e w1 _ run _
             Hexp Hrun Hcert Hd1).
  rewrite ok_eq. apply Z.leb_le. rewrite Z.geb_leb in Hge.
  apply Z.leb_le in Hge. lia.
Qed.

(** [update_expired_at] never expires an entitlement that is redeemable at
    the same clock reading: any day count returned at that reading is
    non-negative, and whatever [update_expired_at] returns there is the
    entitlement unchanged, with the table unwritten.  Both return when the
    expiry date is representable; when it is not, both raise
    [OverflowError]. *)
Theorem redeemable_is_not_expired_by_update (self : CourseEntitlement)
    (w : World) :
  entitlement_is_entitlement_redeemable self w = (Ok true, tick w) ->
  (forall d w1,
      entitlement_get_days_until_expiration get_from_id self w = (Ok d, w1) ->
      0 <= d)
  /\ (forall self' w',
        update self w = (Ok self', w') -> self' = self /\ w' = tick w)
  /\ (representable (created self + expiration_period (policy self)) = true ->
      (exists d, entitlement_get_days_until_expiration get_from_id self w
                 = (Ok d, tick w) /\ 0 <= d)
      /\ update self w = (Ok self, tick w))
  /\ (representable (created self + expiration_period (policy self)) = false ->
      entitlement_get_days_until_expiration get_from_id self w
      = (Raise (OverflowError "date value out of range"), tick w)
      /\ update self w
         = (Raise (OverflowError "date value out of range"), tick w)).
Proof.
  unfold entitlement_is_entitlement_redeemable,
    entitlement_get_days_until_expiration.
  rewrite redeemable_value, ok_eq, !andb_true_iff, !negb_true_iff,
    !truthy_false, Z.ltb_lt.
  intros [[Hd Hrun] Hexp].
  assert (Hnow : reading w <= created self + expiration_period (policy self)).
  { pose proof (days_floor (expiration_period (policy self))) as F.
    apply days_lt_iff in Hd. lia. }
  assert (Hbase : 0 <= days (created self + expiration_period (policy self)
                             - reading w)).
  { apply (days_ge_iff _ 0). lia. }
  destruct (representable (created self + expiration_period (policy self)))
    eqn:Hrep.
  - pose proof (days_until_unbound get_from_id (policy self) self w Hrep Hrun)
      as Hcount.
    pose proof (update_keeps_unredeemed_until_expiry get_from_id certificate
                  self w Hexp Hrun Hrep Hnow) as Hup.
    repeat apply conj.
    + intros d w1 H. rewrite Hcount in H.
      assert (d = days (created self + expiration_period (policy self)
                        - reading w)) by congruence.
      subst d. exact Hbase.
    + intros self' w' H. rewrite Hup in H. split; congruence.
    + intros _. split; [eexists; split; [exact Hcount | exact Hbase] | exact Hup].
    + intros H. discriminate H.
  - pose proof (days_until_overflows get_from_id (policy self) self w Hrep)
      as Hcount.
    assert (Hup : update self w
                  = (Raise (OverflowError "date value out of range"), tick w)).
    { rewrite (update_by_condition get_from_id certificate self w Hexp),
        expiry_condition_by_days, Hcount. reflexivity. }
    repeat apply conj.
    + intros d w1 H. rewrite Hcount in H. discriminate H.
    + intros self' w' H. rewrite Hup in H. discriminate H.
    + intros H. discriminate H.
    + intros _. split; [exact Hcount | exact Hup].
Qed.

End TimeProperties.

(** ** The other queries *)

Lemma order_by_created_desc_head (rows : list CourseEntitlement)
    (e : CourseEntitlement) (rest : list CourseEntitlement) :
  order_by_created_desc rows = e :: rest ->
  In e rows /\ forall e', In e' rows -> created e' <= created e.
Proof.
  intros H.
  pose proof (order_by_created_desc_perm rows) as P.
  pose proof (order_by_created_desc_sorted rows) as S.
  rewrite H in P, S. split.
  - apply (Permutation_in e P). left. reflexivity.
  - intros e' He'. apply (Permutation_in e' (Permutation_sym P)) in He'.
    destruct He' as [<- | He']; [lia |].
    inversion S as [| ? ? _ Hall]; subst.
    rewrite Forall_forall in Hall. exact (Hall e' He').
Qed.

Lemma order_by_created_desc_nil (rows : list CourseEntitlement) :
  order_by_created_desc rows = [] -> rows = [].
Proof.
  intros H. pose proof (order_by_created_desc_perm rows) as P.
  rewrite H in P. apply Permutation_nil. exact P.
Qed.

Lemma In_active_for_course (u : User) (c : UUID)
    (rows : list CourseEntitlement) (e : CourseEntitlement) :
  In e (filter (fun e => negb (expired_and_unredeemed e))
          (filter (fun e => (user e =? u) && String.eqb (course_uuid e) c) rows))
  <-> In e rows /\ user e = u /\ course_uuid e = c
      /\ ~ (expired_at e <> None /\ enrollment_course_run e = None).
Proof.
  rewrite !filter_In, negb_true_iff, andb_true_iff, Z.eqb_eq, String.eqb_eq,
    <- expired_and_unredeemed_iff, not_true_iff_false.
  tauto.
Qed.

Lemma get_entitlement_if_active_value (u : User) (c : UUID) (w : World) :
  get_entitlement_if_active u c w
  = (Ok (hd_error
           (order_by_created_desc
              (filter (fun e => negb (expired_and_unredeemed e))
                 (filter (fun e => (user e =? u) && String.eqb (course_uuid e) c)
                    (entitlements w))))), w).
Proof.
  unfold get_entitlement_if_active, try_except, objects, latest_created.
  unfold bind at 1.
  destruct (order_by_created_desc _); reflexivity.
Qed.

(** [get_entitlement_if_active] never raises and leaves the world alone.
    It answers [None] exactly when every entitlement of the learner for
    the course is expired and unredeemed (in particular when there is
    none); otherwise it answers one of the others, and none of those was
    created later than the one it answers. *)
Theorem get_entitlement_if_active_newest (u : User) (c : UUID) (w : World) :
  exists r,
    get_entitlement_if_active u c w = (Ok r, w)
    /\ match r with
       | None =>
           forall e, In e (entitlements w) -> user e = u -> course_uuid e = c ->
                     expired_at e <> None /\ enrollment_course_run e = None
       | Some e =>
           In e (entitlements w) /\ user e = u /\ course_uuid e = c
           /\ ~ (expired_at e <> None /\ enrollment_course_run e = None)
           /\ forall e', In e' (entitlements w) -> user e' = u ->
                         course_uuid e' = c ->
                         ~ (expired_at e' <> None
                            /\ enrollment_course_run e' = None) ->
                         created e' <= created e
       end.
Proof.
  rewrite get_entitlement_if_active_value.
  destruct (order_by_created_desc
              (filter (fun e => negb (expired_and_unredeemed e))
                 (filter (fun e => (user e =? u) && String.eqb (course_uuid e) c)
                    (entitlements w)))) as [| e rest] eqn:Hsorted.
  - exists None. split; [reflexivity |].
    apply order_by_created_desc_nil in Hsorted.
    intros e Hin Hu Hc.
    assert (Hnot : ~ In e (filter (fun e => negb (expired_and_unredeemed e))
                     (filter (fun e => (user e =? u) && String.eqb (course_uuid e) c)
                        (entitlements w)))) by (rewrite Hsorted; intros []).
    rewrite In_active_for_course in Hnot.
    destruct (expired_at e); destruct (enrollment_course_run e);
      split; try congruence; exfalso; apply Hnot; repeat split; try assumption;
      intros [? ?]; congruence.
  - exists (Some e). split; [reflexivity |].
    apply order_by_created_desc_head in Hsorted. destruct Hsorted as [Hin Hmax].
    apply In_active_for_course in Hin.
    destruct Hin as [Hin [Hu [Hc Hex]]].
    repeat apply conj; try assumption.
    intros e' Hin' Hu' Hc' Hex'. apply Hmax. apply In_active_for_course. tauto.
Qed.

(** [get_entitlement_if_active] agrees with
    [get_active_entitlements_for_user]: it answers [None] exactly when no
    active entitlement of the learner is for the course, and what it
    answers otherwise is one of the active entitlements, for that course. *)
Theorem get_entitlement_if_active_among_active (u : User) (c : UUID)
    (w : World) :
  exists r active,
    get_entitlement_if_active u c w = (Ok r, w)
    /\ get_active_entitlements_for_user u w = (Ok active, w)
    /\ (r = None <-> forall e, In e active -> course_uuid e <> c)
    /\ (forall e, r = Some e -> In e active /\ course_uuid e = c).
Proof.
  rewrite get_entitlement_if_active_value.
  eexists. eexists. split; [reflexivity |]. split; [reflexivity |].
  assert (Hact : forall e,
    In e (filter (fun e => negb (expired_and_unredeemed e))
            (filter (fun e => user e =? u) (entitlements w)))
    <-> In e (entitlements w) /\ user e = u
        /\ ~ (expired_at e <> None /\ enrollment_course_run e = None)).
  { intros e. rewrite In_excluding, expired_and_unredeemed_iff. tauto. }
  destruct (order_by_created_desc
              (filter (fun e => negb (expired_and_unredeemed e))
                 (filter (fun e => (user e =? u) && String.eqb (course_uuid e) c)
                    (entitlements w)))) as [| e rest] eqn:Hsorted;
    cbn [hd_error].
  - apply order_by_created_desc_nil in Hsorted. split.
    + split; [| reflexivity]. intros _ e Hin Hc.
      apply Hact in Hin.
      assert (Hin' : In e (filter (fun e => negb (expired_and_unredeemed e))
                (filter (fun e => (user e =? u) && String.eqb (course_uuid e) c)
                   (entitlements w)))) by (apply In_active_for_course; tauto).
      rewrite Hsorted in Hin'. destruct Hin'.
    + intros e He. discriminate He.
  - apply order_by_created_desc_head in Hsorted. destruct Hsorted as [Hin _].
    apply In_active_for_course in Hin. destruct Hin as [Hin [Hu [Hc Hex]]].
    split.
    + split; [intros H; discriminate H |].
      intros Hnone. exfalso. apply (Hnone e); [| exact Hc].
      apply Hact. tauto.
    + intros e' He'. injection He' as <-. split; [apply Hact; tauto | exact Hc].
Qed.

(** The unexpired entitlements of a learner are exactly those that are
    both active and fulfillable. *)
Theorem unexpired_is_active_and_fulfillable (u : User) (w : World) :
  exists unexpired active fulfillable,
    unexpired_entitlements_for_user u w = (Ok unexpired, w)
    /\ get_active_entitlements_for_user u w = (Ok active, w)
    /\ get_fulfillable_entitlements u w = (Ok fulfillable, w)
    /\ (forall e, In e unexpired <->
                  In e (entitlements w) /\ user e = u /\ expired_at e = None)
    /\ (forall e, In e unexpired <-> In e active /\ In e fulfillable).
Proof.
  do 3 eexists. do 3 (split; [reflexivity |]).
  assert (Hun : forall e,
    In e (filter (fun e => (user e =? u) && negb (truthy (expired_at e)))
            (entitlements w))
    <-> In e (entitlements w) /\ user e = u /\ expired_at e = None).
  { intros e. rewrite filter_In, andb_true_iff, negb_true_iff, Z.eqb_eq,
      truthy_false. tauto. }
  split; [exact Hun |].
  intros e. rewrite Hun.
  rewrite In_excluding, expired_and_unredeemed_iff.
  assert (Hful : In e (order_by_created_desc
            (filter (fun e => negb (expired_and_redeemed e))
               (filter (fun e => user e =? u) (entitlements w))))
          <-> In e (entitlements w) /\ user e = u
              /\ ~ (expired_at e <> None /\ enrollment_course_run e <> None)).
  { rewrite <- expired_and_redeemed_iff, <- In_excluding. split.
    - apply Permutation_in, order_by_created_desc_perm.
    - apply Permutation_in, Permutation_sym, order_by_created_desc_perm. }
  rewrite Hful.
  destruct (expired_at e); destruct (enrollment_course_run e);
    split; intros H; repeat split; try tauto; try congruence;
    exfalso; destruct H as [[_ [_ H1]] [_ [_ H2]]];
    try (apply H1; split; congruence); try (apply H2; split; congruence).
Qed.

(** ** Rows and primary keys *)

Lemma upsert_same_id (s : CourseEntitlement) (rows : list CourseEntitlement)
    (e : CourseEntitlement) :
  NoDup (map id rows) -> In e (upsert s rows) -> id e = id s -> e = s.
Proof.
  induction rows as [| r rows IH]; cbn [upsert map]; intros Hnd Hin Hid.
  - destruct Hin as [<- | []]. reflexivity.
  - inversion Hnd as [| ? ? Hnotin Hnd']; subst.
    destruct (Z.eqb_spec (id r) (id s)) as [Heq | Hneq].
    + destruct Hin as [<- | Hin]; [reflexivity |].
      exfalso. apply Hnotin. rewrite Heq, <- Hid. apply in_map. exact Hin.
    + destruct Hin as [<- | Hin]; [congruence |].
      apply IH; assumption.
Qed.

Lemma first_match_of_sorted (f : CourseEntitlement -> bool)
    (rows : list CourseEntitlement) (e : CourseEntitlement) :
  newest_first rows ->
  hd_error (filter f rows) = Some e ->
  In e rows /\ f e = true
  /\ forall e', In e' rows -> f e' = true -> created e' <= created e.
Proof.
  unfold newest_first. induction rows as [| r rows IH]; intros Hs Hhd.
  - discriminate Hhd.
  - inversion Hs as [| ? ? Hs' Hall]; subst. cbn [filter] in Hhd.
    destruct (f r) eqn:Hfr.
    + cbn [hd_error] in Hhd. injection Hhd as <-.
      split; [left; reflexivity | split; [exact Hfr |]].
      intros e' [<- | Hin] _; [lia |].
      rewrite Forall_forall in Hall. exact (Hall e' Hin).
    + destruct (IH Hs' Hhd) as [Hin [Hfe Hmax]].
      split; [right; exact Hin | split; [exact Hfe |]].
      intros e' [<- | Hin'] Hfe'; [congruence | exact (Hmax e' Hin' Hfe')].
Qed.

(** ** More on redemption *)

Section LookupProperties.

Variable get_course_uuid : CourseKey -> option UUID.
Variable run_check : CourseKey -> option CourseEntitlement -> exn + bool.
Variable enroll : User -> CourseKey -> string -> M CourseEnrollment.

Local Abbreviation find_fulfillable :=
  (get_fulfillable_entitlement_for_user_course_run get_course_uuid run_check).
Local Abbreviation redeem_into := (enroll_user_and_fulfill_entitlement enroll).
Local Abbreviation check_and_redeem :=
  (check_for_existing_entitlement_and_enroll get_course_uuid run_check enroll).

(** How the lookup arrives at an entitlement. *)
Lemma find_fulfillable_some (u : User) (course_run_key : CourseKey)
    (w w' : World) (e : CourseEntitlement) :
  find_fulfillable u course_run_key w = (Ok (Some e), w') ->
  exists c,
    get_course_uuid course_run_key = Some c
    /\ hd_error
         (filter (fun e => String.eqb (course_uuid e) c)
            (order_by_created_desc
               (filter (fun e => negb (expired_and_redeemed e))
                  (filter (fun e => user e =? u) (entitlements w)))))
       = Some e
    /\ run_check course_run_key (Some e) = inr true
    /\ entitlement_is_entitlement_redeemable e w = (Ok true, w').
Proof.
  unfold get_fulfillable_entitlement_for_user_course_run.
  unfold bind at 1. rewrite fulfillable_value.
  destruct (order_by_created_desc
              (filter (fun e => negb (expired_and_redeemed e))
                 (filter (fun e => user e =? u) (entitlements w))))
    as [| e0 rest] eqn:Hsorted; [intros H; discriminate H |].
  rewrite <- Hsorted.
  destruct (get_course_uuid course_run_key) as [c |];
    [| intros H; discriminate H].
  destruct (hd_error (filter (fun e => String.eqb (course_uuid e) c)
                        (order_by_created_desc
                           (filter (fun e => negb (expired_and_redeemed e))
                              (filter (fun e => user e =? u) (entitlements w))))))
    as [e1 |] eqn:Hhd.
  - unfold bind at 1. unfold lift.
    destruct (run_check course_run_key (Some e1)) as [x | [|]] eqn:Hcheck;
      [intros H; discriminate H | | intros H; discriminate H].
    unfold ret at 1. unfold bind.
    destruct (entitlement_is_entitlement_redeemable e1 w) as [[[|] | x] w1]
      eqn:Hred; intros H; try discriminate H.
    unfold ret in H. assert (e1 = e) by congruence. subst e1.
    assert (w1 = w') by congruence. subst w1.
    exists c. auto.
  - unfold bind at 1. unfold lift.
    destruct (run_check course_run_key None) as [x | [|]];
      intros H; discriminate H.
Qed.

(** Whatever the lookup returns is a row of the table that belongs to the
    learner and to the course the run resolves to, that the collaborator
    accepted for the run, and that is unredeemed, unexpired and within its
    expiration period; no other fulfillable entitlement of the learner for
    that course was created later.  One clock reading was taken. *)
Theorem lookup_returns_newest_redeemable (u : User) (course_run_key : CourseKey)
    (w w' : World) (e : CourseEntitlement) :
  find_fulfillable u course_run_key w = (Ok (Some e), w') ->
  w' = tick w
  /\ In e (entitlements w)
  /\ user e = u
  /\ get_course_uuid course_run_key = Some (course_uuid e)
  /\ run_check course_run_key (Some e) = inr true
  /\ enrollment_course_run e = None
  /\ expired_at e = None
  /\ days (reading w - created e) < days (expiration_period (policy e))
  /\ forall e', In e' (entitlements w) -> user e' = u ->
                course_uuid e' = course_uuid e ->
                ~ (expired_at e' <> None /\ enrollment_course_run e' <> None) ->
                created e' <= created e.
Proof.
  intros H. apply find_fulfillable_some in H.
  destruct H as [c [Hc [Hhd [Hcheck Hred]]]].
  unfold entitlement_is_entitlement_redeemable in Hred.
  rewrite redeemable_value in Hred.
  assert (Hw : w' = tick w) by congruence. subst w'.
  rewrite ok_eq, !andb_true_iff, !negb_true_iff, !truthy_false, Z.ltb_lt in Hred.
  destruct Hred as [[Hd Hrun] Hexp].
  apply first_match_of_sorted in Hhd; [| apply order_by_created_desc_sorted].
  destruct Hhd as [Hin [Hce Hmax]].
  apply String.eqb_eq in Hce.
  apply (Permutation_in e (order_by_created_desc_perm _)) in Hin.
  apply In_excluding in Hin. destruct Hin as [Hin [Hu _]].
  repeat apply conj; try assumption; try reflexivity; try congruence.
  intros e' Hin' Hu' Hc' Hex'. apply Hmax.
  - apply (Permutation_in e' (Permutation_sym (order_by_created_desc_perm _))).
    apply In_excluding. rewrite expired_and_redeemed_iff.
    split; [exact Hin' | split; [exact Hu' | exact Hex']].
  - apply String.eqb_eq. congruence.
Qed.

(** Redemption fails closed: when every entitlement of the learner is
    expired and redeemed (or there is none), or the catalog cannot resolve
    the run, [check_for_existing_entitlement_and_enroll] answers [False];
    the enrolment service is not called and the world is untouched. *)
Theorem check_and_redeem_fails_closed (u : User) (course_run_key : CourseKey)
    (w : World) :
  (forall e, In e (entitlements w) -> user e = u ->
             expired_at e <> None /\ enrollment_course_run e <> None)
  \/ get_course_uuid course_run_key = None ->
  check_and_redeem u course_run_key w = (Ok false, w).
Proof.
  intros H. unfold check_for_existing_entitlement_and_enroll.
  unfold bind at 1.
  assert (Hfind : find_fulfillable u course_run_key w = (Ok None, w)).
  { destruct H as [Hall | Hnone].
    - apply (proj1 (find_fulfillable_none get_course_uuid run_check
                      u course_run_key w)).
      rewrite fulfillable_value.
      replace (filter (fun e => negb (expired_and_redeemed e))
                 (filter (fun e => user e =? u) (entitlements w)))
        with (@nil CourseEntitlement); [reflexivity |].
      symmetry.
      destruct (filter (fun e => negb (expired_and_redeemed e))
                 (filter (fun e => user e =? u) (entitlements w)))
        as [| e l] eqn:Hf; [reflexivity |].
      assert (Hin : In e (e :: l)) by (left; reflexivity).
      rewrite <- Hf in Hin. apply In_excluding in Hin.
      destruct Hin as [Hin [Hu Hex]]. exfalso. apply Hex.
      apply expired_and_redeemed_iff. exact (Hall e Hin Hu).
    - apply (proj2 (find_fulfillable_none get_course_uuid run_check
                      u course_run_key w)).
      exact Hnone. }
  rewrite Hfind. reflexivity.
Qed.

(** An exception of the enrolment service that is not a
    [CourseEnrollmentException] is not swallowed: it leaves
    [enroll_user_and_fulfill_entitlement] and
    [check_for_existing_entitlement_and_enroll] as it is, nothing is
    logged by them, and the entitlement table is the one at entry. *)
Theorem other_exceptions_propagate (entitlement : CourseEntitlement)
    (course_run_key : CourseKey) (w w1 : World) (x : exn) :
  enroll (user entitlement) course_run_key (mode entitlement) w = (Raise x, w1) ->
  is_CourseEnrollmentException x = false ->
  exists w2,
    redeem_into entitlement course_run_key w = (Raise x, w2)
    /\ entitlements w2 = entitlements w
    /\ log w2 = log w1
    /\ forall u w0,
         find_fulfillable u course_run_key w0 = (Ok (Some entitlement), w) ->
         check_and_redeem u course_run_key w0 = (Raise x, w2).
Proof.
  intros Hen Hx. eexists.
  split; [exact (redeem_into_other_exception enroll _ _ _ _ _ Hen Hx) |].
  split; [reflexivity |]. split; [reflexivity |].
  intros u w0 Hfind.
  rewrite (check_and_redeem_found get_course_uuid run_check enroll
             u course_run_key w0 w entitlement Hfind).
  rewrite (redeem_into_other_exception enroll _ _ _ _ _ Hen Hx). reflexivity.
Qed.

(** A redemption is not repeated on the table it leaves.  When the
    enrolment goes through on a table with unique primary keys,
    [enroll_user_and_fulfill_entitlement] returns [True], and as long as
    the table stays as that call left it, no lookup, for any learner or
    run, returns a row with the key of the entitlement just redeemed. *)
Theorem redeemed_row_is_not_offered_again (entitlement : CourseEntitlement)
    (course_run_key : CourseKey) (w w1 : World) (enrollment : CourseEnrollment) :
  enroll (user entitlement) course_run_key (mode entitlement) w
  = (Ok enrollment, w1) ->
  NoDup (map id (entitlements w1)) ->
  exists entitlement' w2,
    redeem_into entitlement course_run_key w = (Ok (true, entitlement'), w2)
    /\ id entitlement' = id entitlement
    /\ forall u key w3 w4 e,
         entitlements w3 = entitlements w2 ->
         find_fulfillable u key w3 = (Ok (Some e), w4) ->
         id e <> id entitlement.
Proof.
  intros Hen Hnd. do 2 eexists.
  split; [exact (redeem_into_success enroll _ _ _ _ _ Hen) |].
  split; [reflexivity |].
  intros u key w3 w4 e Htable Hfind Hid.
  apply find_fulfillable_some in Hfind.
  destruct Hfind as [c [_ [Hhd [_ Hred]]]].
  assert (Hin : In e (entitlements w3)).
  { destruct (order_by_created_desc
                (filter (fun e => negb (expired_and_redeemed e))
                   (filter (fun e => user e =? u) (entitlements w3))))
      as [| e0 rest] eqn:Hsorted; [discriminate Hhd |].
    rewrite <- Hsorted in Hhd.
    assert (Hin' : In e (filter (fun e => String.eqb (course_uuid e) c)
                     (order_by_created_desc
                        (filter (fun e => negb (expired_and_redeemed e))
                           (filter (fun e => user e =? u) (entitlements w3)))))).
    { destruct (filter (fun e => String.eqb (course_uuid e) c) _) as [| e1 l];
        [discriminate Hhd |].
      cbn [hd_error] in Hhd. left. congruence. }
    apply filter_In in Hin'. destruct Hin' as [Hin' _].
    apply (Permutation_in e (order_by_created_desc_perm _)) in Hin'.
    apply In_excluding in Hin'. destruct Hin' as [Hin' _]. exact Hin'. }
  rewrite Htable in Hin. cbn [entitlements with_entitlements] in Hin.
  assert (He : e = with_enrollment_course_run (Some enrollment) entitlement).
  { apply (upsert_same_id _ (entitlements w1) e Hnd Hin). exact Hid. }
  unfold entitlement_is_entitlement_redeemable in Hred.
  rewrite redeemable_value, He in Hred.
  cbn [enrollment_course_run with_enrollment_course_run truthy negb] in Hred.
  rewrite andb_false_r in Hred. cbn [andb] in Hred. congruence.
Qed.

End LookupProperties.

(** ** Expiration and the listings *)

Section ListingProperties.

Variable get_from_id : CourseKey -> exn + CourseOverview.
Variable certificate : User -> CourseKey -> bool.

Local Abbreviation update := (update_expired_at get_from_id certificate).

(** Where an entitlement stands in the two listings once
    [update_expired_at] has expired it, in a table with unique primary
    keys: its row is saved, no other row carries its key, it is active
    exactly when it was redeemed and fulfillable exactly when it was not. *)
Theorem expiring_moves_between_queries (self self' : CourseEntitlement)
    (w w' : World) :
  NoDup (map id (entitlements w)) ->
  update self w = (Ok self', w') ->
  expired_at self = None ->
  expired_at self' <> None ->
  exists active fulfillable,
    get_active_entitlements_for_user (user self) w' = (Ok active, w')
    /\ get_fulfillable_entitlements (user self) w' = (Ok fulfillable, w')
    /\ In self' (entitlements w')
    /\ (forall e, In e (entitlements w') -> id e = id self -> e = self')
    /\ (In self' active <-> enrollment_course_run self <> None)
    /\ (In self' fulfillable <-> enrollment_course_run self = None).
Proof.
  intros Hnd Hup Hexp Hexp'.
  rewrite (update_by_condition get_from_id certificate self w Hexp) in Hup.
  destruct (expiry_condition get_from_id certificate self w)
    as [[[|] | x] w1] eqn:Hc; apply expiry_condition_world in Hc;
    [| congruence | discriminate Hup].
  assert (Hs : self' = with_expired_at (Some (reading w1)) self) by congruence.
  assert (Hw : w' = with_entitlements (upsert self' (entitlements w1)) (tick w1))
    by congruence.
  assert (Ht : entitlements w' = upsert self' (entitlements w)).
  { rewrite Hw. cbn [entitlements with_entitlements]. rewrite Hc. reflexivity. }
  do 2 eexists. do 2 (split; [reflexivity |]).
  assert (Hin : In self' (entitlements w')) by (rewrite Ht; apply upsert_In).
  assert (Hid : id self' = id self) by (rewrite Hs; reflexivity).
  assert (Hu : user self' = user self) by (rewrite Hs; reflexivity).
  assert (Hrun : enrollment_course_run self' = enrollment_course_run self)
    by (rewrite Hs; reflexivity).
  split; [exact Hin |]. split.
  { intros e He Hide. rewrite Ht in He.
    apply (upsert_same_id self' (entitlements w) e Hnd He). congruence. }
  split.
  - rewrite In_excluding, expired_and_unredeemed_iff, Hrun.
    destruct (enrollment_course_run self); split; try tauto; try congruence.
  - assert (Hful : In self' (order_by_created_desc
              (filter (fun e => negb (expired_and_redeemed e))
                 (filter (fun e => user e =? user self) (entitlements w'))))
            <-> In self' (entitlements w') /\ user self' = user self
                /\ ~ (expired_at self' <> None
                      /\ enrollment_course_run self' <> None)).
    { rewrite <- expired_and_redeemed_iff, <- In_excluding. split.
      - apply Permutation_in, order_by_created_desc_perm.
      - apply Permutation_in, Permutation_sym, order_by_created_desc_perm. }
    rewrite Hful, Hrun.
    destruct (enrollment_course_run self); split; try tauto; try congruence.
    intros [_ [_ H]]. exfalso. apply H. split; [exact Hexp' | congruence].
Qed.

End ListingProperties.

(** ** The dictionary and the getter *)

Section ProjectionProperties.

Variable get_from_id : CourseKey -> exn + CourseOverview.
Variable certificate : User -> CourseKey -> bool.
Variable ALERT_PERIOD : Z.
Variable strftime : datetime -> string -> string.

Local Abbreviation days_until := (get_days_until_expiration get_from_id).
Local Abbreviation update := (update_expired_at get_from_id certificate).
Local Abbreviation getter := (expired_at_datetime get_from_id certificate).
Local Abbreviation dict_of :=
  (to_dict get_from_id certificate ALERT_PERIOD strftime).

Lemma getter_value (self : CourseEntitlement) (w : World) :
  getter self w
  = match update self w with
    | (Ok self', w') => (Ok (expired_at self', self'), w')
    | (Raise x, w') => (Raise x, w')
    end.
Proof.
  unfold expired_at_datetime, bind.
  destruct (update self w) as [[self' | x] w']; reflexivity.
Qed.

(** What a call of [update_expired_at] can leave behind. *)
Lemma update_outcome (self : CourseEntitlement) (w w' : World)
    (out : Outcome CourseEntitlement) :
  update self w = (out, w') ->
  match out with
  | Ok self' =>
      (self' = self /\ entitlements w' = entitlements w)
      \/ (expired_at self = None
          /\ (exists t, self' = with_expired_at (Some t) self)
          /\ entitlements w' = upsert self' (entitlements w))
  | Raise x =>
      entitlements w' = entitlements w
      /\ day_count_raises get_from_id (policy self) self x
  end.
Proof.
  intros H. destruct (expired_at self) as [t |] eqn:Hexp.
  - rewrite update_already_expired in H by congruence.
    inversion H; subst. left. split; reflexivity.
  - rewrite (update_by_condition get_from_id certificate self w Hexp) in H.
    destruct (expiry_condition get_from_id certificate self w)
      as [[[|] | x] w1] eqn:Hc.
    + apply expiry_condition_world in Hc. inversion H; subst.
      right. split; [reflexivity | split; [eexists; reflexivity |]].
      cbn [entitlements with_entitlements]. rewrite Hc. reflexivity.
    + apply expiry_condition_world in Hc. inversion H; subst.
      left. split; [reflexivity | exact Hc].
    + pose proof (expiry_condition_world get_from_id certificate self w w1 _ Hc)
        as Hframe.
      inversion H; subst. split; [exact Hframe |].
      rewrite expiry_condition_by_days in Hc.
      destruct (days_until (policy self) self w) as [[d | y] w2] eqn:Hd.
      * destruct (d <? 0); [discriminate Hc |].
        destruct (truthy (enrollment_course_run self)); [| discriminate Hc].
        destruct (is_entitlement_regainable get_from_id certificate
                    (policy self) self w2) as [[r | y] w3] eqn:Hr;
          [discriminate Hc |].
        assert (y = x) by congruence. subst y.
        apply regainable_raises_iff in Hr.
        destruct Hr as [_ [_ [Hraise _]]]. exact Hraise.
      * assert (y = x) by congruence. subst y.
        apply days_until_raises_iff in Hd.
        destruct Hd as [Hraise _]. exact Hraise.
Qed.

(** [to_dict], stage by stage: the second read of the getter finds the
    stamp the first one left and returns it. *)
Lemma to_dict_value (self : CourseEntitlement) (w : World) :
  dict_of self w
  = match days_until (policy self) self w with
    | (Raise x, w1) => (Raise x, w1)
    | (Ok d, w1) =>
        match expiration_date_stage get_from_id ALERT_PERIOD strftime self d w1
        with
        | (Raise x, w3) => (Raise x, w3)
        | (Ok shown, w3) =>
            match update self w3 with
            | (Raise x, w4) => (Raise x, w4)
            | (Ok self', w4) =>
                (Ok ({| dict_uuid := uuid self;
                        dict_course_uuid := course_uuid self;
                        dict_expired_at :=
                          option_map (fun t => strftime t "SHORT_DATE")
                            (expired_at self');
                        dict_expiration_date := shown |},
                     self'), w4)
            end
        end
    end.
Proof.
  assert (Hrest : forall shown w3,
    (test <- getter self ;;
     formatted <-
       (if truthy (fst test) then
          value <- getter (snd test) ;;
          match fst value with
          | Some t => ret (Some (strftime t "SHORT_DATE"), snd value)
          | None => raise (NoneType_has_no_attribute "strftime")
          end
        else ret (None, snd test)) ;;
     ret ({| dict_uuid := uuid self;
             dict_course_uuid := course_uuid self;
             dict_expired_at := fst formatted;
             dict_expiration_date := shown |},
          snd formatted)) w3
    = match update self w3 with
      | (Raise x, w4) => (Raise x, w4)
      | (Ok self', w4) =>
          (Ok ({| dict_uuid := uuid self;
                  dict_course_uuid := course_uuid self;
                  dict_expired_at :=
                    option_map (fun t => strftime t "SHORT_DATE")
                      (expired_at self');
                  dict_expiration_date := shown |},
               self'), w4)
      end).
  { intros shown w3. unfold bind at 1. rewrite getter_value.
    destruct (update self w3) as [[self' | x] w4] eqn:Hu; [| reflexivity].
    cbn [fst snd]. unfold bind at 1.
    destruct (expired_at self') as [t |] eqn:Ht; cbn [truthy]; [| reflexivity].
    unfold bind at 1. rewrite getter_value.
    rewrite update_already_expired by congruence.
    rewrite Ht. reflexivity. }
  unfold to_dict, entitlement_get_days_until_expiration, expiration_date_stage.
  unfold bind at 1.
  destruct (days_until (policy self) self w) as [[d | x] w1]; [| reflexivity].
  unfold bind at 1.
  destruct (d <? ALERT_PERIOD).
  - unfold bind at 1. unfold now at 1. unfold bind at 1.
    destruct (days_until (policy self) self (tick w1)) as [[d' | x] w3];
      [| reflexivity].
    unfold bind at 1. unfold timedelta_from_days.
    destruct ((- TIMEDELTA_MAX_DAYS <=? d') && (d' <=? TIMEDELTA_MAX_DAYS));
      [| reflexivity].
    unfold ret at 1. unfold bind at 1. unfold datetime_add.
    destruct (representable (reading w1 + timedelta_of_days d'));
      [| reflexivity].
    unfold ret at 1. unfold ret at 1. apply Hrest.
  - unfold ret at 1. apply Hrest.
Qed.

Lemma to_dict_frame (self : CourseEntitlement) (w1 w3 : World) (d : Z)
    (out : Outcome (option string)) :
  expiration_date_stage get_from_id ALERT_PERIOD strftime self d w1 = (out, w3) ->
  entitlements w3 = entitlements w1
  /\ match out with
     | Ok shown => shown <> None <-> d < ALERT_PERIOD
     | Raise x =>
         (exists message, x = OverflowError message)
         \/ exists run, enrollment_course_run self = Some run
                        /\ get_from_id (course_id run) = inl x
     end.
Proof.
  unfold expiration_date_stage.
  destruct (Z.ltb_spec d ALERT_PERIOD) as [L | L].
  - destruct (days_until (policy self) self (tick w1)) as [[d' | x] w3'] eqn:Hd.
    + apply days_until_world in Hd. subst w3'.
      destruct ((- TIMEDELTA_MAX_DAYS <=? d') && (d' <=? TIMEDELTA_MAX_DAYS)).
      * destruct (representable (reading w1 + timedelta_of_days d'));
          intros H; inversion H; subst; (split; [reflexivity |]).
        -- split; [intros _; exact L | intros _ E; discriminate E].
        -- left. eexists. reflexivity.
      * intros H; inversion H; subst. split; [reflexivity |].
        left. eexists. reflexivity.
    + pose proof (days_until_world get_from_id _ _ _ _ _ Hd). subst w3'.
      intros H. inversion H; subst. split; [reflexivity |].
      apply days_until_raises_iff in Hd.
      destruct Hd as [[[_ ->] | [_ Hrun]] _].
      * left. eexists. reflexivity.
      * right. exact Hrun.
  - intros H. inversion H; subst. split; [reflexivity |].
    split; [intros E; congruence | lia].
Qed.

(** [to_dict] is not a pure read.  The dictionary it returns carries the
    entitlement's identifiers; its [expired_at] is the formatted stamp of
    the object as the call leaves it, and is [None] exactly when that
    object is unexpired.  The object is either untouched, with the table
    untouched, or it was unexpired and has been stamped and saved.
    [expiration_date] is present exactly when the day count read first is
    below the alert period. *)
Theorem to_dict_reports_the_object_it_leaves (self self' : CourseEntitlement)
    (w w' : World) (dict : EntitlementDict) :
  dict_of self w = (Ok (dict, self'), w') ->
  dict_uuid dict = uuid self
  /\ dict_course_uuid dict = course_uuid self
  /\ dict_expired_at dict
     = option_map (fun t => strftime t "SHORT_DATE") (expired_at self')
  /\ (dict_expired_at dict = None <-> expired_at self' = None)
  /\ ((self' = self /\ entitlements w' = entitlements w)
      \/ (expired_at self = None
          /\ (exists t, self' = with_expired_at (Some t) self)
          /\ entitlements w' = upsert self' (entitlements w)))
  /\ (dict_expiration_date dict <> None <->
      exists d w1, days_until (policy self) self w = (Ok d, w1)
                   /\ d < ALERT_PERIOD).
Proof.
  rewrite to_dict_value.
  destruct (days_until (policy self) self w) as [[d | x] w1] eqn:Hd;
    [| intros H; discriminate H].
  pose proof (days_until_world get_from_id _ _ _ _ _ Hd) as Hw1.
  destruct (expiration_date_stage get_from_id ALERT_PERIOD strftime self d w1)
    as [[shown | x] w3] eqn:Hshown;
    [| intros H; discriminate H].
  apply to_dict_frame in Hshown. destruct Hshown as [Hframe Hshown].
  destruct (update self w3) as [[s | x] w4] eqn:Hu; [| intros H; discriminate H].
  apply update_outcome in Hu.
  intros H. inversion H; subst. cbn [dict_uuid dict_course_uuid dict_expired_at
                                       dict_expiration_date].
  repeat apply conj; try reflexivity.
  - destruct (expired_at self'); cbn [option_map]; intros E; congruence.
  - destruct (expired_at self'); cbn [option_map]; intros E; congruence.
  - rewrite Hframe in Hu. cbn [entitlements tick] in Hu. exact Hu.
  - intros Hs. exists d, (tick w). split; [reflexivity | apply Hshown; exact Hs].
  - intros [d0 [w0 [E L]]]. assert (d0 = d) by congruence. subst d0.
    apply Hshown. exact L.
Qed.

(** What [to_dict] can raise: an [OverflowError] of its date arithmetic, or
    the exception the course overview lookup of the bound run raised, and
    nothing else.  For an entitlement with no enrolment bound only the
    [OverflowError] is left; if moreover its expiry date is representable
    and its day count is not below the alert period, [to_dict] returns. *)
Theorem to_dict_raises_overflow_or_lookup (self : CourseEntitlement) (w : World) :
  (forall x w',
      dict_of self w = (Raise x, w') ->
      (exists message, x = OverflowError message)
      \/ exists run, enrollment_course_run self = Some run
                     /\ get_from_id (course_id run) = inl x)
  /\ (enrollment_course_run self = None ->
      forall x w',
        dict_of self w = (Raise x, w') ->
        exists message, x = OverflowError message)
  /\ (enrollment_course_run self = None ->
      representable (created self + expiration_period (policy self)) = true ->
      ALERT_PERIOD
      <= days (created self + expiration_period (policy self) - reading w) ->
      exists dict self' w', dict_of self w = (Ok (dict, self'), w')).
Proof.
  assert (Hcount : forall x,
    day_count_raises get_from_id (policy self) self x ->
    (exists message, x = OverflowError message)
    \/ exists run, enrollment_course_run self = Some run
                   /\ get_from_id (course_id run) = inl x).
  { intros x [[_ ->] | [_ Hrun]]; [left; eexists; reflexivity | right; exact Hrun]. }
  assert (Hraise : forall x w',
    dict_of self w = (Raise x, w') ->
    (exists message, x = OverflowError message)
    \/ exists run, enrollment_course_run self = Some run
                   /\ get_from_id (course_id run) = inl x).
  { intros x w'. rewrite to_dict_value.
    destruct (days_until (policy self) self w) as [[d | y] w1] eqn:Hd.
    - destruct (expiration_date_stage get_from_id ALERT_PERIOD strftime self d w1)
        as [[shown | y] w3] eqn:Hshown.
      + destruct (update self w3) as [[s | y] w4] eqn:Hu;
          [intros H; discriminate H |].
        apply update_outcome in Hu. destruct Hu as [_ Hu].
        intros H. assert (y = x) by congruence. subst y. exact (Hcount x Hu).
      + apply to_dict_frame in Hshown. destruct Hshown as [_ Hshown].
        intros H. assert (y = x) by congruence. subst y. exact Hshown.
    - apply days_until_raises_iff in Hd. destruct Hd as [Hd _].
      intros H. assert (y = x) by congruence. subst y. exact (Hcount x Hd). }
  split; [exact Hraise |]. split.
  - intros Hrun x w' H. destruct (Hraise x w' H) as [Hover | [run [Hr _]]];
      [exact Hover | congruence].
  - intros Hrun Hrep Hd. rewrite to_dict_value.
    rewrite (days_until_unbound get_from_id (policy self) self w Hrep Hrun).
    unfold expiration_date_stage.
    replace (days (created self + expiration_period (policy self) - reading w)
             <? ALERT_PERIOD) with false
      by (symmetry; apply Z.ltb_ge; exact Hd).
    destruct (update self (tick w)) as [[s | x] w4] eqn:Hu.
    + do 3 eexists. reflexivity.
    + apply update_outcome in Hu. destruct Hu as [_ [[H _] | [_ [run [Hr _]]]]];
        congruence.
Qed.

(** Writing a stamp through the setter and reading it back returns it
    without touching the world.  Clearing the stamp of an entitlement
    whose day count is negative does not last: the next read stamps it
    again, with the clock, and saves the row. *)
Theorem setter_then_getter (self : CourseEntitlement) (w : World) :
  (forall t,
      getter (set_expired_at_datetime self (Some t)) w
      = (Ok (Some t, set_expired_at_datetime self (Some t)), w))
  /\ (forall d w1,
        days_until (policy self) (set_expired_at_datetime self None) w
        = (Ok d, w1) ->
        d < 0 ->
        exists self' w',
          getter (set_expired_at_datetime self None) w
          = (Ok (Some (reading w1), self'), w')
          /\ self' = with_expired_at (Some (reading w1)) self
          /\ In self' (entitlements w')).
Proof.
  split.
  - intros t. rewrite getter_value.
    rewrite update_already_expired; [reflexivity |].
    cbn. intros E. discriminate E.
  - intros d w1 Hd L. rewrite getter_value.
    rewrite (update_by_condition get_from_id certificate
               (set_expired_at_datetime self None) w eq_refl).
    rewrite expiry_condition_by_days.
    change (policy (set_expired_at_datetime self None)) with (policy self).
    rewrite Hd. apply Z.ltb_lt in L. rewrite L.
    eexists. eexists. split; [reflexivity |].
    split; [destruct self; reflexivity |].
    cbn [entitlements with_entitlements]. apply upsert_In.
Qed.

End ProjectionProperties.

(** ** Further instances *)

Lemma days_until_never_grows_witness :
  reading (on_day 3 []) <= reading (on_day 5 [])
  /\ get_days_until_expiration (overview_starting T0) default_policy
       (redeemed T0 T0) (on_day 3 []) = (Ok 11, tick (on_day 3 []))
  /\ get_days_until_expiration (overview_starting T0) default_policy
       (redeemed T0 T0) (on_day 5 []) = (Ok 9, tick (on_day 5 []))
  /\ 9 <= 11.
Proof.
  assert (H : reading (on_day 3 []) <= reading (on_day 5 []))
    by (intros E; discriminate E).
  split; [exact H |]. split; [reflexivity |]. split; [reflexivity |].
  exact (days_until_never_grows (overview_starting T0) default_policy
           (redeemed T0 T0) (on_day 3 []) (on_day 5 []) _ _ 11 9
           H eq_refl eq_refl).
Defined.

Lemma days_until_at_most_unbound_witness :
  get_days_until_expiration (overview_starting T0) default_policy
    (redeemed T0 T0) (on_day 3 []) = (Ok 11, tick (on_day 3 []))
  /\ exists base,
       get_days_until_expiration (overview_starting T0) default_policy
         (with_enrollment_course_run None (redeemed T0 T0)) (on_day 3 [])
       = (Ok base, tick (on_day 3 []))
       /\ base = days (created (redeemed T0 T0)
                       + expiration_period default_policy
                       - reading (on_day 3 []))
       /\ 11 <= base.
Proof.
  split; [reflexivity |].
  exact (days_until_at_most_unbound (overview_starting T0) default_policy
           (redeemed T0 T0) (on_day 3 []) _ 11 eq_refl).
Defined.

Lemma regainable_earlier_witness :
  reading (on_day 3 []) <= reading (on_day 14 [])
  /\ is_entitlement_regainable (overview_starting T0) no_certificate
       default_policy (redeemed T0 T0) (on_day 14 [])
     = (Ok true, tick (on_day 14 []))
  /\ is_entitlement_regainable (overview_starting T0) no_certificate
       default_policy (redeemed T0 T0) (on_day 3 [])
     = (Ok true, tick (on_day 3 [])).
Proof.
  assert (H : reading (on_day 3 []) <= reading (on_day 14 []))
    by (intros E; discriminate E).
  split; [exact H |]. split; [reflexivity |].
  exact (regainable_earlier (overview_starting T0) no_certificate
           default_policy (redeemed T0 T0) (on_day 3 []) (on_day 14 []) _
           H eq_refl).
Defined.

Lemma redeemable_is_not_expired_by_update_witness :
  entitlement_is_entitlement_redeemable (purchased T0)
    (on_day 449 [purchased T0])
  = (Ok true, tick (on_day 449 [purchased T0]))
  /\ update_expired_at (overview_starting T0) no_certificate (purchased T0)
       (on_day 449 [purchased T0])
     = (Ok (purchased T0), tick (on_day 449 [purchased T0]))
  /\ entitlement_is_entitlement_redeemable (purchased_long T0)
       (on_day 449 [purchased_long T0])
     = (Ok true, tick (on_day 449 [purchased_long T0]))
  /\ update_expired_at (overview_starting T0) no_certificate (purchased_long T0)
       (on_day 449 [purchased_long T0])
     = (Raise (OverflowError "date value out of range"),
        tick (on_day 449 [purchased_long T0])).
Proof.
  split; [reflexivity |].
  destruct (redeemable_is_not_expired_by_update (overview_starting T0)
              no_certificate (purchased T0) (on_day 449 [purchased T0])
              eq_refl) as [_ [_ [Hok _]]].
  split; [exact (proj2 (Hok eq_refl)) |].
  split; [reflexivity |].
  destruct (redeemable_is_not_expired_by_update (overview_starting T0)
              no_certificate (purchased_long T0)
              (on_day 449 [purchased_long T0]) eq_refl) as [_ [_ [_ Hover]]].
  exact (proj2 (Hover eq_refl)).
Defined.

Lemma lookup_returns_newest_redeemable_witness :
  get_fulfillable_entitlement_for_user_course_run catalog
    run_accepted_for_owner 7 run_A (on_day 1 [purchased T0])
  = (Ok (Some (purchased T0)), tick (on_day 1 [purchased T0]))
  /\ In (purchased T0) (entitlements (on_day 1 [purchased T0]))
  /\ catalog run_A = Some (course_uuid (purchased T0))
  /\ enrollment_course_run (purchased T0) = None
  /\ expired_at (purchased T0) = None.
Proof.
  split; [reflexivity |].
  destruct (lookup_returns_newest_redeemable catalog run_accepted_for_owner
              7 run_A (on_day 1 [purchased T0]) _ (purchased T0) eq_refl)
    as [_ [Hin [_ [Hc [_ [Hrun [Hexp _]]]]]]].
  split; [exact Hin |]. split; [exact Hc |]. split; [exact Hrun | exact Hexp].
Defined.

Lemma check_and_redeem_fails_closed_witness :
  catalog run_unknown = None
  /\ check_for_existing_entitlement_and_enroll catalog run_accepted_for_owner
       enroll_succeeds 7 run_unknown (on_day 1 [purchased T0])
     = (Ok false, on_day 1 [purchased T0]).
Proof.
  split; [reflexivity |].
  apply check_and_redeem_fails_closed. right. reflexivity.
Defined.

Lemma other_exceptions_propagate_witness :
  enroll_crashes (user (purchased T0)) run_A (mode (purchased T0))
    (on_day 1 [purchased T0])
  = (Raise (OtherException "IntegrityError"), on_day 1 [purchased T0])
  /\ exists w2,
       enroll_user_and_fulfill_entitlement enroll_crashes (purchased T0) run_A
         (on_day 1 [purchased T0])
       = (Raise (OtherException "IntegrityError"), w2)
       /\ entitlements w2 = [purchased T0]
       /\ log w2 = [].
Proof.
  split; [reflexivity |].
  destruct (other_exceptions_propagate catalog run_accepted_for_owner
              enroll_crashes (purchased T0) run_A (on_day 1 [purchased T0])
              (on_day 1 [purchased T0]) (OtherException "IntegrityError")
              eq_refl eq_refl) as [w2 [Hr [Ht [Hl _]]]].
  exists w2. split; [exact Hr |]. split; [exact Ht | exact Hl].
Defined.

Lemma redeemed_row_is_not_offered_again_witness :
  enroll_succeeds (user (purchased T0)) run_A (mode (purchased T0))
    (on_day 1 [purchased T0])
  = (Ok (enrolled (T0 + timedelta_of_days 1)), tick (on_day 1 [purchased T0]))
  /\ NoDup (map id (entitlements (tick (on_day 1 [purchased T0]))))
  /\ exists entitlement' w2,
       enroll_user_and_fulfill_entitlement enroll_succeeds (purchased T0) run_A
         (on_day 1 [purchased T0])
       = (Ok (true, entitlement'), w2)
       /\ forall w4 e,
            get_fulfillable_entitlement_for_user_course_run catalog
              run_accepted_for_owner 7 run_A w2
            = (Ok (Some e), w4) ->
            id e <> id (purchased T0).
Proof.
  assert (Hnd : NoDup (map id (entitlements (tick (on_day 1 [purchased T0]))))).
  { cbn. constructor; [intros [] | constructor]. }
  split; [reflexivity |]. split; [exact Hnd |].
  destruct (redeemed_row_is_not_offered_again catalog run_accepted_for_owner
              enroll_succeeds (purchased T0) run_A (on_day 1 [purchased T0])
              (tick (on_day 1 [purchased T0]))
              (enrolled (T0 + timedelta_of_days 1)) eq_refl Hnd)
    as [entitlement' [w2 [Hr [_ Hnot]]]].
  exists entitlement', w2. split; [exact Hr |].
  intros w4 e. apply (Hnot 7 run_A w2 w4 e eq_refl).
Defined.

Lemma expiring_moves_between_queries_witness :
  NoDup (map id (entitlements (on_day 451 [purchased T0])))
  /\ exists active fulfillable,
       get_active_entitlements_for_user 7
         (tick (tick (on_day 451
            [with_expired_at (Some (T0 + timedelta_of_days 451)) (purchased T0)])))
       = (Ok active,
          tick (tick (on_day 451
            [with_expired_at (Some (T0 + timedelta_of_days 451)) (purchased T0)])))
       /\ get_fulfillable_entitlements 7
            (tick (tick (on_day 451
               [with_expired_at (Some (T0 + timedelta_of_days 451))
                  (purchased T0)])))
          = (Ok fulfillable,
             tick (tick (on_day 451
               [with_expired_at (Some (T0 + timedelta_of_days 451))
                  (purchased T0)])))
       /\ ~ In (with_expired_at (Some (T0 + timedelta_of_days 451))
                  (purchased T0)) active
       /\ In (with_expired_at (Some (T0 + timedelta_of_days 451)) (purchased T0))
            fulfillable.
Proof.
  assert (Hnd : NoDup (map id (entitlements (on_day 451 [purchased T0])))).
  { cbn. constructor; [intros [] | constructor]. }
  split; [exact Hnd |].
  destruct (expiring_moves_between_queries (overview_starting T0)
              no_certificate (purchased T0)
              (with_expired_at (Some (T0 + timedelta_of_days 451)) (purchased T0))
              (on_day 451 [purchased T0])
              (tick (tick (on_day 451
                 [with_expired_at (Some (T0 + timedelta_of_days 451))
                    (purchased T0)])))
              Hnd eq_refl eq_refl)
    as [active [fulfillable [Ha [Hf [_ [_ [Hact Hful]]]]]]].
  { intros E. discriminate E. }
  exists active, fulfillable.
  split; [exact Ha |]. split; [exact Hf |]. split.
  - intros Hin. apply Hact in Hin. apply Hin. reflexivity.
  - apply Hful. reflexivity.
Defined.

Lemma to_dict_reports_the_object_it_leaves_witness :
  exists dict self' w',
    to_dict (overview_starting T0) no_certificate 90 format_name (purchased T0)
      (on_day 451 [purchased T0])
    = (Ok (dict, self'), w')
    /\ dict_expired_at dict
       = option_map (fun t => format_name t "SHORT_DATE") (expired_at self')
    /\ expired_at self' = Some (T0 + timedelta_of_days 451)
    /\ entitlements w' = [self'].
Proof.
  do 3 eexists. split; [reflexivity |].
  destruct (to_dict_reports_the_object_it_leaves (overview_starting T0)
              no_certificate 90 format_name (purchased T0) _
              (on_day 451 [purchased T0]) _ _ eq_refl)
    as [_ [_ [H _]]].
  split; [exact H |]. split; reflexivity.
Defined.

Lemma to_dict_raises_overflow_or_lookup_witness :
  enrollment_course_run (purchased T0) = None
  /\ representable (created (purchased T0)
                    + expiration_period (policy (purchased T0))) = true
  /\ 90 <= days (created (purchased T0)
                 + expiration_period (policy (purchased T0))
                 - reading (on_day 3 [purchased T0]))
  /\ (exists dict self' w',
        to_dict overview_missing no_certificate 90 format_name (purchased T0)
          (on_day 3 [purchased T0])
        = (Ok (dict, self'), w'))
  /\ to_dict overview_missing no_certificate 90 format_name (purchased_long T0)
       (on_day 3 [purchased_long T0])
     = (Raise (OverflowError "date value out of range"),
        tick (on_day 3 [purchased_long T0])).
Proof.
  assert (Hd : 90 <= days (created (purchased T0)
                           + expiration_period (policy (purchased T0))
                           - reading (on_day 3 [purchased T0])))
    by (intros E; discriminate E).
  split; [reflexivity |]. split; [reflexivity |]. split; [exact Hd |]. split.
  - exact (proj2 (proj2 (to_dict_raises_overflow_or_lookup overview_missing
                           no_certificate 90 format_name (purchased T0)
                           (on_day 3 [purchased T0])))
             eq_refl eq_refl Hd).
  - reflexivity.
Defined.

Lemma setter_then_getter_witness :
  get_days_until_expiration (overview_starting T0) default_policy
    (set_expired_at_datetime
       (with_expired_at (Some (T0 + timedelta_of_days 451)) (purchased T0)) None)
    (on_day 452 [])
  = (Ok (-2), tick (on_day 452 []))
  /\ exists self' w',
       expired_at_datetime (overview_starting T0) no_certificate
         (set_expired_at_datetime
            (with_expired_at (Some (T0 + timedelta_of_days 451)) (purchased T0))
            None)
         (on_day 452 [])
       = (Ok (Some (T0 + timedelta_of_days 452), self'), w')
       /\ In self' (entitlements w').
Proof.
  split; [reflexivity |].
  destruct (proj2 (setter_then_getter (overview_starting T0) no_certificate
                     (with_expired_at (Some (T0 + timedelta_of_days 451))
                        (purchased T0))
                     (on_day 452 []))
              (-2) (tick (on_day 452 [])) eq_refl eq_refl)
    as [self' [w' [Hg [_ Hin]]]].
  exists self', w'. split; [exact Hg | exact Hin].
Defined.

(** ** Days elapsed and days left *)

(** For an unredeemed entitlement under a whole number [k] of expiration
    days, the days since creation and the days until expiration, taken at
    the same instant, add up to [k] or to [k - 1]: both are floors. *)
Theorem elapsed_plus_remaining (get_from_id : CourseKey -> exn + CourseOverview)
    (p : CourseEntitlementPolicy) (e : CourseEntitlement) (w w1 w2 : World)
    (k s d : Z) :
  enrollment_course_run e = None ->
  expiration_period p = timedelta_of_days k ->
  get_days_since_created e w = (Ok s, w1) ->
  get_days_until_expiration get_from_id p e w = (Ok d, w2) ->
  k - 1 <= s + d <= k.
Proof.
  intros Hrun Hk Hs Hd.
  pose proof (days_until_returned get_from_id p e w w2 d Hd) as Hrep.
  rewrite (days_until_unbound get_from_id p e w Hrep Hrun), Hk in Hd.
  unfold get_days_since_created in Hs.
  cbv beta iota delta [bind ret now] in Hs.
  assert (Es : s = days (reading w - created e)) by congruence.
  assert (Ed : d = days (created e + timedelta_of_days k - reading w))
    by congruence.
  pose proof (days_floor (reading w - created e)) as F1.
  pose proof (days_floor (created e + timedelta_of_days k - reading w)) as F2.
  rewrite <- Es in F1. rewrite <- Ed in F2.
  unfold timedelta_of_days, MICROSECONDS_PER_DAY in *. lia.
Qed.

Lemma elapsed_plus_remaining_witness :
  get_days_since_created (purchased T0) (on_day 3 []) = (Ok 3, tick (on_day 3 []))
  /\ get_days_until_expiration (overview_starting T0) default_policy
       (purchased T0) (on_day 3 []) = (Ok 447, tick (on_day 3 []))
  /\ 450 - 1 <= 3 + 447 <= 450.
Proof.
  split; [reflexivity |]. split; [reflexivity |].
  exact (elapsed_plus_remaining (overview_starting T0) default_policy
           (purchased T0) (on_day 3 []) _ _ 450 3 447
           eq_refl eq_refl eq_refl eq_refl).
Defined.
